(** * portable_msvc.py: version discovery, package expansion, verified fetch

    A shallow embedding of the manifest-driven parts of [portable_msvc.py]
    and the properties its specification states about them.

    Conventions of the embedding:
    - a Python [str] is a [string]; its characters are the code points
      U+0000..U+00FF (so [str.lower] and [str.isnumeric] are the Latin-1
      restrictions of the Unicode ones);
    - a Python [bytes] is a [list byte];
    - a Python [int] is a [Z];
    - a [dict] whose iteration order is observed is an association list in
      insertion order ([Dict.t]); a [dict] only read by key is a [gmap];
    - an uncaught exception and [sys.exit] are values of [outcome];
    - the file system under [downloads/], the byte counter of the
      [DownloadManager] and the console are fields of [world]; the network
      and the other external tools are the oracle [env]. *)

From Stdlib Require Import ZArith NArith Ascii String List Lia.
From Stdlib Require Import Strings.Byte.
From stdpp Require Import gmap strings list sorting.

Local Open Scope Z_scope.

(** ** Outcomes of a Python call *)

Inductive exn : Type :=
  | KeyError (key : string)
  | TypeError
  | IndexError
  | ValueError
  | AttributeError
  | UnicodeDecodeError
  | URLError
  | ZeroDivisionError
  | BadZipFile
  | CalledProcessError
  | FileNotFoundError
  | OutOfFuel.  (* not a Python exception: the bound of a modelled loop was reached *)

(** The argument of [sys.exit]. *)
Inductive exit_arg : Type :=
  | ExitCode (status : Z)
  | ExitMsg (msg : string).

Inductive outcome (A : Type) : Type :=
  | Return (a : A)
  | Raise (e : exn)
  | SysExit (arg : exit_arg).
Arguments Return {A} a.
Arguments Raise {A} e.
Arguments SysExit {A} arg.

Global Instance outcome_ret : MRet outcome := fun A a => Return a.
Global Instance outcome_bind : MBind outcome := fun A B k m =>
  match m with
  | Return a => k a
  | Raise e => Raise e
  | SysExit arg => SysExit arg
  end.

Definition returns {A} (m : outcome A) : bool :=
  match m with Return _ => true | _ => false end.

(** ** Python built-ins used by the program *)

Module Py.

(** [c.lower()] for a single code point below 256. *)
Definition chr_lower (c : ascii) : ascii :=
  let n := N_of_ascii c in
  if ((65 <=? n) && (n <=? 90)
      || (192 <=? n) && (n <=? 222) && negb (n =? 215))%N
  then ascii_of_N (n + 32) else c.

(** [s.lower()] *)
Fixpoint lower (s : string) : string :=
  match s with
  | EmptyString => EmptyString
  | String c s' => String (chr_lower c) (lower s')
  end.

(** [c.isnumeric()] for a single code point below 256: the decimal digits,
    the superscripts 1, 2, 3 and the vulgar fractions. *)
Definition chr_isnumeric (c : ascii) : bool :=
  let n := N_of_ascii c in
  ((48 <=? n) && (n <=? 57) || (n =? 178) || (n =? 179) || (n =? 185)
   || (188 <=? n) && (n <=? 190))%N.

Fixpoint all_numeric (s : string) : bool :=
  match s with
  | EmptyString => true
  | String c s' => chr_isnumeric c && all_numeric s'
  end.

(** [s.isnumeric()]: every character is numeric and there is at least one. *)
Definition isnumeric (s : string) : bool :=
  match s with
  | EmptyString => false
  | _ => all_numeric s
  end.

(** [s[0]] *)
Definition first_char (s : string) : outcome ascii :=
  match s with
  | EmptyString => Raise IndexError
  | String c _ => Return c
  end.

(** [s.startswith(p)] *)
Fixpoint startswith (s p : string) : bool :=
  match p, s with
  | EmptyString, _ => true
  | String a p', String b s' => if Ascii.eqb a b then startswith s' p' else false
  | String _ _, EmptyString => false
  end.

(** [s.endswith(p)] *)
Fixpoint endswith (s p : string) : bool :=
  if String.eqb s p then true
  else match s with
       | EmptyString => false
       | String _ s' => endswith s' p
       end.

(** [s.split(sep)] for a one-character separator. *)
Fixpoint split (sep : ascii) (s : string) : list string :=
  match s with
  | EmptyString => [EmptyString]
  | String c s' =>
      if Ascii.eqb c sep then EmptyString :: split sep s'
      else match split sep s' with
           | w :: ws => String c w :: ws
           | [] => [String c EmptyString]
           end
  end.

(** [sep.join(l)] *)
Definition join (sep : string) (l : list string) : string := String.concat sep l.

(** Normalisation of a slice bound against a sequence of length [len]. *)
Definition clip (len i : Z) : Z :=
  if i <? 0 then Z.max 0 (i + len) else Z.min i len.

(** [l[start:stop]], negative bounds counting from the end. *)
Definition slice {A} (l : list A) (start stop : Z) : list A :=
  let n := Z.of_nat (length l) in
  let a := clip n start in
  let b := clip n stop in
  take (Z.to_nat (b - a)) (drop (Z.to_nat a) l).

(** [l[-1]] *)
Definition last_item {A} (l : list A) : outcome A :=
  match last l with
  | Some x => Return x
  | None => Raise IndexError
  end.

(** [sorted(l)] on strings: ascending code-point order. *)
Definition sorted (l : list string) : list string := merge_sort String.le l.

(** The running maximum of [max]: a later item replaces it when greater. *)
Definition larger (m y : string) : string := if String.ltb m y then y else m.

(** [max(l)] on strings; [ValueError] on the empty sequence. *)
Definition max_str (l : list string) : outcome string :=
  match l with
  | [] => Raise ValueError
  | x :: l' => Return (foldl larger x l')
  end.

(** [x or y] on an optional string: [None] and [""] are falsy. *)
Definition or_else (x : option string) (y : outcome string) : outcome string :=
  match x with
  | Some (String c s) => Return (String c s)
  | _ => y
  end.

(** [next((item for item in items if condition(item)), None)] *)
Fixpoint find_first {A} (condition : A → bool) (items : list A) : option A :=
  match items with
  | [] => None
  | x :: items' => if condition x then Some x else find_first condition items'
  end.

End Py.

(** ** Host detection (lines 87-102) *)

Definition ALL_HOSTS : list string := ["x64"; "x86"; "arm64"].
Definition ALL_TARGETS : list string := ["x64"; "x86"; "arm"; "arm64"].

(** [detect_host], as a function of the value of [platform.machine()]. *)
Definition detect_host (platform_machine : string) : string :=
  let machine := Py.lower platform_machine in
  if String.eqb machine "amd64" then "x64"
  else if String.eqb machine "arm64" then "arm64"
  else if String.eqb machine "x86" then "x86"
  else "x64".

(** ** [hashlib.sha256(data).hexdigest()] (FIPS 180-4) *)

Module Hashlib.
Local Open Scope N_scope.

Definition mask32 (x : N) : N := N.land x 0xffffffff.
Definition add32 (x y : N) : N := mask32 (x + y).
Definition rotr (r x : N) : N :=
  N.lor (N.shiftr x r) (mask32 (N.shiftl x (32 - r))).

Definition choose (e f g : N) : N :=
  N.lxor (N.land e f) (N.land (N.lxor e 0xffffffff) g).
Definition majority (a b c : N) : N :=
  N.lxor (N.lxor (N.land a b) (N.land a c)) (N.land b c).
Definition big_sigma0 (x : N) : N := N.lxor (N.lxor (rotr 2 x) (rotr 13 x)) (rotr 22 x).
Definition big_sigma1 (x : N) : N := N.lxor (N.lxor (rotr 6 x) (rotr 11 x)) (rotr 25 x).
Definition small_sigma0 (x : N) : N := N.lxor (N.lxor (rotr 7 x) (rotr 18 x)) (N.shiftr x 3).
Definition small_sigma1 (x : N) : N := N.lxor (N.lxor (rotr 17 x) (rotr 19 x)) (N.shiftr x 10).

(** The constants of FIPS 180-4 are fractional parts of roots of the first
    primes: 32 bits of the cube roots of the first 64 for the rounds, 32 bits
    of the square roots of the first 8 for the initial chaining value. *)
Definition is_prime (n : N) : bool :=
  (2 <=? n) && forallb (fun d => negb (n mod d =? 0))
                       (N.of_nat <$> seq 2 (N.to_nat n - 2)).

Definition primes : list N :=
  Eval vm_compute in filter (fun n => is_prime n = true) (N.of_nat <$> seq 2 310).

(** The integer cube root, one bit at a time from bit [bits - 1]. *)
Fixpoint cube_root (bits : nat) (n root : N) : N :=
  match bits with
  | O => root
  | S bits' =>
      let candidate := root + 2 ^ N.of_nat bits' in
      if candidate * candidate * candidate <=? n
      then cube_root bits' n candidate
      else cube_root bits' n root
  end.

Definition round_constants : list N :=
  Eval vm_compute in
    (fun p => mask32 (cube_root 36 (p * 2 ^ 96) 0)) <$> take 64 primes.

Definition initial_words : list N :=
  Eval vm_compute in (fun p => mask32 (N.sqrt (p * 2 ^ 64))) <$> take 8 primes.

(** The eight chaining words. *)
Record chain : Type :=
  Chain { ha : N; hb : N; hc : N; hd : N; he : N; hf : N; hg : N; hh : N }.

Definition initial_chain : chain :=
  match initial_words with
  | [a; b; c; d; e; f; g; h] => Chain a b c d e f g h
  | _ => Chain 0 0 0 0 0 0 0 0
  end.

(** Message schedule, most recent word first while it is extended. *)
Fixpoint extend (n : nat) (recent : list N) : list N :=
  match n with
  | O => recent
  | S n' =>
      let w := add32 (add32 (small_sigma1 (nth 1 recent 0)) (nth 6 recent 0))
                     (add32 (small_sigma0 (nth 14 recent 0)) (nth 15 recent 0)) in
      extend n' (w :: recent)
  end.
Definition schedule (block : list N) : list N := rev (extend 48 (rev block)).

Definition round (s : chain) (kw : N * N) : chain :=
  let t1 := add32 (add32 (add32 (hh s) (big_sigma1 (he s)))
                         (add32 (choose (he s) (hf s) (hg s)) kw.1)) kw.2 in
  let t2 := add32 (big_sigma0 (ha s)) (majority (ha s) (hb s) (hc s)) in
  Chain (add32 t1 t2) (ha s) (hb s) (hc s) (add32 (hd s) t1) (he s) (hf s) (hg s).

Definition compress (h : chain) (block : list N) : chain :=
  let s := foldl round h (zip round_constants (schedule block)) in
  Chain (add32 (ha h) (ha s)) (add32 (hb h) (hb s)) (add32 (hc h) (hc s))
        (add32 (hd h) (hd s)) (add32 (he h) (he s)) (add32 (hf h) (hf s))
        (add32 (hg h) (hg s)) (add32 (hh h) (hh s)).

(** Big-endian bytes of the low [n] bytes of [x]. *)
Fixpoint be_bytes (n : nat) (x : N) : list N :=
  match n with
  | O => []
  | S n' => N.land (N.shiftr x (8 * N.of_nat n')) 0xff :: be_bytes n' x
  end.

Definition pad (msg : list byte) : list N :=
  let len := N.of_nat (length msg) in
  let zeros := Z.to_nat ((55 - Z.of_N len) mod 64)%Z in
  (Byte.to_N <$> msg) ++ 0x80 :: replicate zeros 0 ++ be_bytes 8 (8 * len).

(** Big-endian 32-bit words of a byte sequence whose length is a multiple of 4. *)
Fixpoint words (fuel : nat) (l : list N) : list N :=
  match fuel, l with
  | S fuel', b0 :: b1 :: b2 :: b3 :: l' =>
      (N.shiftl b0 24 + N.shiftl b1 16 + N.shiftl b2 8 + b3) :: words fuel' l'
  | _, _ => []
  end.

Fixpoint blocks (fuel : nat) (h : chain) (ws : list N) : chain :=
  match fuel, ws with
  | S fuel', _ :: _ => blocks fuel' (compress h (take 16 ws)) (drop 16 ws)
  | _, _ => h
  end.

Definition digest (msg : list byte) : chain :=
  let bytes := pad msg in
  let ws := words (length bytes) bytes in
  blocks (length ws) initial_chain ws.

Definition hexchar (n : N) : ascii :=
  match String.get (N.to_nat n) "0123456789abcdef" with
  | Some c => c
  | None => "0"%char
  end.

Definition hex32 (w : N) : string :=
  string_of_list_ascii
    ((fun s => hexchar (N.land (N.shiftr w s) 0xf)) <$> [28; 24; 20; 16; 12; 8; 4; 0]).

Definition sha256_hexdigest (msg : list byte) : string :=
  let h := digest msg in
  hex32 (ha h) +:+ hex32 (hb h) +:+ hex32 (hc h) +:+ hex32 (hd h) +:+
  hex32 (he h) +:+ hex32 (hf h) +:+ hex32 (hg h) +:+ hex32 (hh h).

Global Arguments sha256_hexdigest : simpl never.

End Hashlib.

Global Instance byte_eq_dec : EqDecision byte := Byte.byte_eq_dec.

(** A [bytes] literal [b"..."]. *)
Definition bytes_of (s : string) : list byte := String.list_byte_of_string s.

(** ** The world the program acts on *)

Inductive event : Type :=
  | NetOpen (url : string)                          (* urllib.request.urlopen(url) *)
  | PrintOk (filename : string)                     (* "{filename} ... OK" *)
  | PrintProgress (filename : string) (progress : Z) (* "{filename} ... {progress}%" *)
  | PrintNewline                                    (* print() *)
  | PrintMissing (package_name : string)            (* "{package_name} ... !!! MISSING !!!" *)
  | PrintLine (text : string).                      (* any other print(text) *)

(** [files]: the content of [downloads/], by file name; [output]: the content
    of [msvc/], by relative path; [total_bytes]: the counter of the
    [DownloadManager]; [trace]: console output and network requests, oldest
    first.

    [files] is keyed by the [filename] argument as given, which stands for
    the path [DOWNLOADS_DIR / filename].  This is the file system for file
    names that are one path component which the system accepts: distinct
    names are then distinct files of [downloads/], and creating one
    succeeds.  A name that is empty, absolute, or has a separator or ".."
    denotes a path that the map does not represent: there the program's
    [open] may raise before any request is made, may write outside
    [downloads/], and two names may denote one file.  The properties below
    that speak of a fetch that reaches the network or returns are about names
    of the first kind. *)
Record world : Type := World {
  files : gmap string (list byte);
  output : gmap string (list byte);
  total_bytes : Z;
  trace : list event
}.

Definition set_files (f : gmap string (list byte)) (w : world) : world :=
  World f (output w) (total_bytes w) (trace w).
Definition set_output (o : gmap string (list byte)) (w : world) : world :=
  World (files w) o (total_bytes w) (trace w).
Definition set_total_bytes (n : Z) (w : world) : world :=
  World (files w) (output w) n (trace w).
Definition log (e : event) (w : world) : world :=
  World (files w) (output w) (total_bytes w) (trace w ++ [e]).

(** What successive [response.read(1 << 20)] calls return. *)
Inductive stream : Type :=
  | Eof
  | Chunk (chunk : list byte) (rest : stream)
  | Broken (e : exn).

Record response : Type := Response {
  content_length : option Z;   (* int(response.headers["Content-Length"]) *)
  body : stream
}.

(** The collaborators outside the program: the network, the ZIP reader and
    the installer-package expander. *)
Record env : Type := Env {
  urlopen : string → option response;
  unzip : list byte → option (list (string * list byte));
  msiexec : string → option (gmap string (list byte))
}.

(** Programs: a world in, an outcome and a world out. *)
Definition prog (A : Type) : Type := world → outcome A * world.

Global Instance prog_ret : MRet prog := fun A a w => (Return a, w).
Global Instance prog_bind : MBind prog := fun A B k m w =>
  match m w with
  | (Return a, w') => k a w'
  | (Raise e, w') => (Raise e, w')
  | (SysExit arg, w') => (SysExit arg, w')
  end.

Definition lift {A} (o : outcome A) : prog A := fun w => (o, w).
Definition emit (e : event) : prog unit := fun w => (Return tt, log e w).
Definition modify (f : world → world) : prog unit := fun w => (Return tt, f w).
Definition get {A} (f : world → A) : prog A := fun w => (Return (f w), w).

(** [for x in l: body x] *)
Fixpoint for_each {A} (l : list A) (body : A → prog unit) : prog unit :=
  match l with
  | [] => mret tt
  | x :: l' => body x ≫= fun _ => for_each l' body
  end.

(** ** DownloadManager (lines 112-161) *)

Module DownloadManager.

(** [simple_download]: the whole body of the response, no verification. *)
Fixpoint read_all (s : stream) : outcome (list byte) :=
  match s with
  | Eof => Return []
  | Chunk chunk rest => tl ← read_all rest; mret (chunk ++ tl)
  | Broken e => Raise e
  end.

Definition simple_download (net : env) (url : string) : prog (list byte) :=
  emit (NetOpen url);;
  match urlopen net url with
  | None => lift (Raise URLError)
  | Some resp => lift (read_all (body resp))
  end.

(** The [while True] loop of lines 140-150.  [filename] is the open file:
    every chunk is appended to it and to [data_buffer] before the progress
    is computed. *)
Fixpoint read_chunks (filename : string) (total_size : Z) (s : stream)
    (downloaded : Z) (data_buffer : list byte) : prog (list byte) :=
  match s with
  | Eof => mret data_buffer
  | Broken e => lift (Raise e)
  | Chunk [] _ => mret data_buffer
  | Chunk chunk rest =>
      let data_buffer := data_buffer ++ chunk in
      modify (fun w => set_files (<[filename := data_buffer]> (files w)) w);;
      let downloaded := downloaded + Z.of_nat (length chunk) in
      if total_size =? 0 then lift (Raise ZeroDivisionError)
      else
        let progress := downloaded * 100 / total_size in
        emit (PrintProgress filename progress);;
        read_chunks filename total_size rest downloaded data_buffer
  end.

(** The cache check of lines 126-128: the file exists and its digest is the
    lower-cased expected one. *)
Definition cached (expected_hash filename : string) (w : world) : option (list byte) :=
  match files w !! filename with
  | Some data =>
      if String.eqb (Hashlib.sha256_hexdigest data) (Py.lower expected_hash)
      then Some data else None
  | None => None
  end.

(** [download_with_progress] (lines 121-161).  Line 133 creates or empties
    the file before line 136 opens the URL; creating the file is taken to
    succeed (see [world]). *)
Definition download_with_progress (net : env)
    (url expected_hash filename : string) : prog (list byte) :=
  hit ← get (cached expected_hash filename);
  match hit with
  | Some data => emit (PrintOk filename);; mret data
  | None =>
      (* file_path.open("wb") *)
      modify (fun w => set_files (<[filename := []]> (files w)) w);;
      emit (NetOpen url);;
      match urlopen net url with
      | None => lift (Raise URLError)
      | Some resp =>
          match content_length resp with
          | None => lift (Raise TypeError)
          | Some total_size =>
              data ← read_chunks filename total_size (body resp) 0 [];
              emit PrintNewline;;
              let actual_hash := Hashlib.sha256_hexdigest data in
              if negb (String.eqb (Py.lower expected_hash) actual_hash)
              then lift (SysExit (ExitMsg ("Hash mismatch for " +:+ filename)))
              else
                modify (fun w => set_total_bytes
                                   (total_bytes w + Z.of_nat (length data)) w);;
                mret data
          end
      end
  end.

End DownloadManager.

(** ** MSIParser (lines 164-178) *)

Module MSIParser.

(** [data[i:i+len(sub)] == sub] for the suffix [l] of [data] from [i]. *)
Fixpoint starts_with (l sub : list byte) : bool :=
  match sub, l with
  | [], _ => true
  | a :: sub', b :: l' => if Byte.eqb a b then starts_with l' sub' else false
  | _ :: _, [] => false
  end.

(** Lowest index at or after [i] where [sub] occurs, [l] being [data[i:]];
    [-1] when there is none. *)
Fixpoint find_in (l sub : list byte) (i : Z) : Z :=
  if starts_with l sub then i
  else match l with
       | [] => -1
       | _ :: l' => find_in l' sub (i + 1)
       end.

(** [data.find(sub, start)] *)
Definition find (data sub : list byte) (start : Z) : Z :=
  let n := Z.of_nat (length data) in
  if n <? start then -1
  else let a := Py.clip n start in
       find_in (drop (Z.to_nat a) data) sub a.

(** [b.decode("ascii")] *)
Definition decode_ascii (b : list byte) : outcome string :=
  if forallb (fun x => (Byte.to_N x <? 128)%N) b
  then Return (String.string_of_list_byte b)
  else Raise UnicodeDecodeError.

Definition marker : list byte := bytes_of ".cab".

(** The [while True] loop; every turn moves [index] forward by at least 4,
    so [fuel] above the length of [msi_data] is never used up. *)
Fixpoint scan (fuel : nat) (msi_data : list byte) (index : Z)
    (cab_files : list string) : outcome (list string) :=
  match fuel with
  | O => Raise OutOfFuel
  | S fuel' =>
      let index := find msi_data marker (index + 4) in
      if index <? 0 then Return cab_files
      else
        cab_name ← decode_ascii (Py.slice msi_data (index - 32) (index + 4));
        scan fuel' msi_data index (cab_files ++ [cab_name])
  end.

Definition extract_cab_files (msi_data : list byte) : outcome (list string) :=
  scan (S (length msi_data)) msi_data 0 [].

End MSIParser.

(** ** Dictionaries in insertion order *)

Module Dict.

Definition t (V : Type) : Type := list (string * V).

(** [d.get(k)] *)
Fixpoint get {V} (d : t V) (k : string) : option V :=
  match d with
  | [] => None
  | (k', v) :: d' => if String.eqb k' k then Some v else get d' k
  end.

(** [k in d] *)
Definition contains {V} (d : t V) (k : string) : bool :=
  match get d k with Some _ => true | None => false end.

(** [d[k]] *)
Definition getitem {V} (d : t V) (k : string) : outcome V :=
  match get d k with
  | Some v => Return v
  | None => Raise (KeyError k)
  end.

(** [d.setdefault(k, []).append(x)]: a new key goes last, a known key keeps
    its place. *)
Fixpoint setdefault_append {V} (d : t (list V)) (k : string) (x : V) : t (list V) :=
  match d with
  | [] => [(k, [x])]
  | (k', v) :: d' =>
      if String.eqb k' k then (k', v ++ [x]) :: d'
      else (k', v) :: setdefault_append d' k x
  end.

(** [d.keys()] *)
Definition keys {V} (d : t V) : list string := d.*1.

End Dict.

(** ** The manifest (the fields the program reads) *)

Record payload : Type := Payload {
  url : string;
  fileName : string;
  sha256 : string
}.

(** A package object of the secondary manifest.  ["language"], ["payloads"]
    and ["dependencies"] may be absent; ["dependencies"] is an object, of
    which the program only reads the keys, in order. *)
Record package : Type := Package {
  pkg_id : string;
  language : option string;
  payloads : option (list payload);
  dependencies : option (list string)
}.

(** [obj[field]] for a field that may be absent. *)
Definition field {A} (name : string) (x : option A) : outcome A :=
  match x with
  | Some a => Return a
  | None => Raise (KeyError name)
  end.

(** [obj[...]] or [obj.method()] when [obj] may be [None]. *)
Definition not_none {A} (e : exn) (x : option A) : outcome A :=
  match x with
  | Some a => Return a
  | None => Raise e
  end.

(** The command line (lines 736-763). *)
Record arguments : Type := Arguments {
  show_versions : bool;
  accept_license : bool;
  msvc_version : option string;
  sdk_version : option string;
  preview : bool;
  target : string;
  host : string
}.

(** ** VSInstaller *)

Module VSInstaller.

Record installer : Type := Installer {
  self_args : arguments;
  self_host : string;
  self_targets : list string
}.

Definition str_in (x : string) (l : list string) : bool :=
  existsb (String.eqb x) l.

(** [_validate_targets] (lines 192-196) *)
Fixpoint validate_targets (targets : list string) : outcome unit :=
  match targets with
  | [] => Return tt
  | target :: rest =>
      if negb (str_in target ALL_TARGETS)
      then SysExit (ExitMsg ("Unknown target architecture: " +:+ target))
      else validate_targets rest
  end.

(** [__init__] (lines 182-190) *)
Definition init (args : arguments) : outcome installer :=
  let targets := Py.split "," (target args) in
  validate_targets targets;;
  Return (Installer args (host args) targets).

(** *** Version discovery (lines 250-279) *)

(** Lines 252-255. *)
Definition group_packages (vs_packages : list package) : Dict.t (list package) :=
  foldl (fun packages package =>
           Dict.setdefault_append packages (Py.lower (pkg_id package)) package)
        [] vs_packages.

(** One turn of the loop of lines 260-277. *)
Definition classify (versions : gmap string string * gmap string string)
    (package_id : string) : outcome (gmap string string * gmap string string) :=
  let '(msvc_versions, sdk_versions) := versions in
  if Py.startswith package_id "microsoft.vc."
     && Py.endswith package_id ".tools.hostx64.targetx64.base"
  then
    let version := Py.join "." (Py.slice (Py.split "." package_id) 2 4) in
    c ← Py.first_char version;
    if Py.chr_isnumeric c
    then Return (<[version := package_id]> msvc_versions, sdk_versions)
    else Return (msvc_versions, sdk_versions)
  else if Py.startswith package_id "microsoft.visualstudio.component.windows10sdk."
          || Py.startswith package_id "microsoft.visualstudio.component.windows11sdk."
  then
    version ← Py.last_item (Py.split "." package_id);
    if Py.isnumeric version
    then Return (msvc_versions, <[version := package_id]> sdk_versions)
    else Return (msvc_versions, sdk_versions)
  else Return (msvc_versions, sdk_versions).

Fixpoint classify_all (versions : gmap string string * gmap string string)
    (package_ids : list string) : outcome (gmap string string * gmap string string) :=
  match package_ids with
  | [] => Return versions
  | package_id :: rest =>
      versions' ← classify versions package_id;
      classify_all versions' rest
  end.

Definition parse_available_versions (vs_packages : list package)
  : outcome (Dict.t (list package) * gmap string string * gmap string string) :=
  let packages := group_packages vs_packages in
  versions ← classify_all (∅, ∅) (Dict.keys packages);
  Return (packages, versions.1, versions.2).

(** *** Version selection (lines 281-302) *)

Definition version_keys (versions : gmap string string) : list string :=
  (map_to_list versions).*1.

Definition select_versions (self : installer)
    (msvc_versions sdk_versions : gmap string string)
  : prog (string * string * string * string) :=
  (if show_versions (self_args self) then
     emit (PrintLine ("MSVC versions: "
                      +:+ Py.join " " (Py.sorted (version_keys msvc_versions))));;
     emit (PrintLine ("Windows SDK versions: "
                      +:+ Py.join " " (Py.sorted (version_keys sdk_versions))));;
     lift (SysExit (ExitCode 0))
   else mret tt);;
  msvc_ver ← lift (Py.or_else (msvc_version (self_args self))
                              (Py.max_str (Py.sorted (version_keys msvc_versions))));
  match msvc_versions !! msvc_ver with
  | None => lift (SysExit (ExitMsg ("Unknown MSVC version: " +:+ msvc_ver)))
  | Some msvc_package_id =>
      sdk_ver ← lift (Py.or_else (sdk_version (self_args self))
                                 (Py.max_str (Py.sorted (version_keys sdk_versions))));
      match sdk_versions !! sdk_ver with
      | None => lift (SysExit (ExitMsg ("Unknown Windows SDK version: " +:+ sdk_ver)))
      | Some sdk_package_id =>
          let full_msvc_version :=
            Py.join "." (Py.slice (Py.split "." msvc_package_id) 2 6) in
          mret (full_msvc_version, sdk_ver, msvc_package_id, sdk_package_id)
      end
  end.

(** *** Package expansion (lines 331-370) *)

Definition base_packages (msvc_version : string) : list string :=
  [ "microsoft.visualcpp.dia.sdk";
    "microsoft.vc." +:+ msvc_version +:+ ".crt.headers.base";
    "microsoft.vc." +:+ msvc_version +:+ ".crt.source.base";
    "microsoft.vc." +:+ msvc_version +:+ ".asan.headers.base";
    "microsoft.vc." +:+ msvc_version +:+ ".pgo.headers.base" ].

Definition target_packages (host msvc_version target : string) : list string :=
  [ "microsoft.vc." +:+ msvc_version +:+ ".tools.host" +:+ host
      +:+ ".target" +:+ target +:+ ".base";
    "microsoft.vc." +:+ msvc_version +:+ ".tools.host" +:+ host
      +:+ ".target" +:+ target +:+ ".res.base";
    "microsoft.vc." +:+ msvc_version +:+ ".crt." +:+ target +:+ ".desktop.base";
    "microsoft.vc." +:+ msvc_version +:+ ".crt." +:+ target +:+ ".store.base";
    "microsoft.vc." +:+ msvc_version +:+ ".premium.tools.host" +:+ host
      +:+ ".target" +:+ target +:+ ".base";
    "microsoft.vc." +:+ msvc_version +:+ ".pgo." +:+ target +:+ ".base" ].

Definition asan_packages (msvc_version target : string) : list string :=
  if str_in target ["x86"; "x64"]
  then ["microsoft.vc." +:+ msvc_version +:+ ".asan." +:+ target +:+ ".base"]
  else [].

Definition redist_suffix (target : string) : string :=
  if String.eqb target "arm" then ".onecore.desktop" else "".

(** The conventionally named redistributable (lines 358-361). *)
Definition redist_conventional (msvc_version target : string) : string :=
  "microsoft.vc." +:+ msvc_version +:+ ".crt.redist." +:+ target
    +:+ redist_suffix target +:+ ".base".

(** Lines 358-368: the redistributable that is appended for [target]. *)
Definition redist_package (packages : Dict.t (list package))
    (msvc_version target : string) : outcome string :=
  let redist_pkg := redist_conventional msvc_version target in
  if negb (Dict.contains packages redist_pkg) then
    let redist_name :=
      "microsoft.visualcpp.crt.redist." +:+ target +:+ redist_suffix target in
    items ← Dict.getitem packages redist_name;
    redist ← not_none TypeError (Py.find_first (fun _ => true) items);
    deps ← field "dependencies" (dependencies redist);
    dep ← not_none AttributeError
            (Py.find_first (fun dep => Py.endswith dep ".base") deps);
    Return (Py.lower dep)
  else Return redist_pkg.

(** The loop of lines 341-370, [msvc_packages] being extended in place. *)
Fixpoint expand_targets (host : string) (packages : Dict.t (list package))
    (msvc_version : string) (targets : list string) (msvc_packages : list string)
  : outcome (list string) :=
  match targets with
  | [] => Return msvc_packages
  | target :: rest =>
      let msvc_packages :=
        msvc_packages ++ target_packages host msvc_version target
                      ++ asan_packages msvc_version target in
      redist_pkg ← redist_package packages msvc_version target;
      expand_targets host packages msvc_version rest (msvc_packages ++ [redist_pkg])
  end.

Definition expand_packages (self : installer) (packages : Dict.t (list package))
    (msvc_version : string) : outcome (list string) :=
  expand_targets (self_host self) packages msvc_version (self_targets self)
                 (base_packages msvc_version).

(** *** Download of the toolchain packages (lines 372-396) *)

(** [p.get("language") in (None, "en-US")] *)
Definition neutral_or_english (p : package) : bool :=
  match language p with
  | None => true
  | Some l => String.eqb l "en-US"
  end.

(** [Path(name).relative_to("Contents")] for a name that starts with
    ["Contents/"]. *)
Definition relative_to_contents (name : string) : string :=
  String.substring 9 (String.length name - 9) name.

(** Lines 389-396; the entries of the archive are taken to be files. *)
Definition extract_zip (net : env) (filename : string) : prog unit :=
  stored ← get (fun w => files w !! filename);
  content ← lift (not_none FileNotFoundError stored);
  entries ← lift (not_none BadZipFile (unzip net content));
  for_each entries (fun entry =>
    if Py.startswith entry.1 "Contents/"
    then modify (fun w =>
           set_output (<[relative_to_contents entry.1 := entry.2]> (output w)) w)
    else mret tt).

(** The body of the loop of lines 373-396. *)
Definition download_package (net : env) (packages : Dict.t (list package))
    (package_name : string) : prog unit :=
  if negb (Dict.contains packages package_name)
  then emit (PrintMissing package_name)
  else
    items ← lift (Dict.getitem packages package_name);
    package ← lift (not_none TypeError (Py.find_first neutral_or_english items));
    package_payloads ← lift (field "payloads" (payloads package));
    for_each package_payloads (fun payload =>
      DownloadManager.download_with_progress net
        (url payload) (sha256 payload) (fileName payload);;
      extract_zip net (fileName payload)).

Definition download_msvc (net : env) (self : installer)
    (packages : Dict.t (list package)) (msvc_version : string) : prog unit :=
  emit (PrintLine "Downloading MSVC packages...");;
  msvc_packages ← lift (expand_packages self packages msvc_version);
  for_each (Py.sorted msvc_packages) (download_package net packages).

(** *** Download of the SDK (lines 398-472) *)

Definition sdk_package_names (self : installer) : list string :=
  [ "Windows SDK for Windows Store Apps Tools-x86_en-us.msi";
    "Windows SDK for Windows Store Apps Headers-x86_en-us.msi";
    "Windows SDK for Windows Store Apps Headers OnecoreUap-x86_en-us.msi";
    "Windows SDK for Windows Store Apps Libs-x86_en-us.msi";
    "Universal CRT Headers Libraries and Sources-x86_en-us.msi" ]
  ++ (ALL_TARGETS ≫= fun target =>
        [ "Windows SDK Desktop Headers " +:+ target +:+ "-x86_en-us.msi";
          "Windows SDK OnecoreUap Headers " +:+ target +:+ "-x86_en-us.msi" ])
  ++ ((fun target => "Windows SDK Desktop Libs " +:+ target +:+ "-x86_en-us.msi")
        <$> self_targets self).

(** [_find_first_item(sdk_package["payloads"],
      lambda p: p["fileName"] == f"Installers\\{name}")] *)
Definition find_installer_payload (sdk_package : package) (name : string)
  : outcome (option payload) :=
  sdk_payloads ← field "payloads" (payloads sdk_package);
  Return (Py.find_first
            (fun p => String.eqb (fileName p) ("Installers\" +:+ name))
            sdk_payloads).

(** Lines 425-428. *)
Definition sdk_dependency (packages : Dict.t (list package))
    (sdk_package_id : string) : outcome package :=
  items ← Dict.getitem packages sdk_package_id;
  sdk_package ← not_none IndexError (head items);
  deps ← field "dependencies" (dependencies sdk_package);
  dep ← not_none AttributeError (Py.find_first (fun _ => true) deps);
  items' ← Dict.getitem packages (Py.lower dep);
  not_none IndexError (head items').

(** The loop of lines 434-446; the state is [(msi_files, cab_files)]. *)
Fixpoint download_msi_files (net : env) (sdk_package : package)
    (package_names : list string) (msi_files cab_files : list string)
  : prog (list string * list string) :=
  match package_names with
  | [] => mret (msi_files, cab_files)
  | package_name :: rest =>
      found ← lift (find_installer_payload sdk_package package_name);
      match found with
      | None => download_msi_files net sdk_package rest msi_files cab_files
      | Some payload =>
          data ← DownloadManager.download_with_progress net
                   (url payload) (sha256 payload) package_name;
          cabs ← lift (MSIParser.extract_cab_files data);
          download_msi_files net sdk_package rest
            (msi_files ++ [package_name]) (cab_files ++ cabs)
      end
  end.

(** The loop of lines 449-456. *)
Definition download_cab_files (net : env) (sdk_package : package)
    (cab_files : list string) : prog unit :=
  for_each cab_files (fun cab_name =>
    found ← lift (find_installer_payload sdk_package cab_name);
    payload ← lift (not_none TypeError found);
    DownloadManager.download_with_progress net
      (url payload) (sha256 payload) cab_name;;
    mret tt).

(** The loop of lines 461-472: the expander either fails or adds files
    under [msvc/]; the copy of the installer package it leaves there is
    removed. *)
Definition install_msi_files (net : env) (msi_files : list string) : prog unit :=
  for_each msi_files (fun msi_file =>
    produced ← lift (not_none CalledProcessError (msiexec net msi_file));
    modify (fun w => set_output (produced ∪ output w) w);;
    present ← get (fun w => output w !! msi_file);
    lift (not_none FileNotFoundError present);;
    modify (fun w => set_output (delete msi_file (output w)) w)).

Definition download_sdk (net : env) (self : installer)
    (packages : Dict.t (list package)) (sdk_package_id : string) : prog unit :=
  emit (PrintLine "Downloading Windows SDK packages...");;
  let sdk_packages := sdk_package_names self in
  sdk_package ← lift (sdk_dependency packages sdk_package_id);
  lists ← download_msi_files net sdk_package (Py.sorted sdk_packages) [] [];
  download_cab_files net sdk_package lists.2;;
  emit (PrintLine "Installing MSI files...");;
  install_msi_files net lists.1.

End VSInstaller.

(** ** The statements of the specification *)

Module Spec.

(** [data[i:i+4] == b".cab"] *)
Definition occurs_at (data : list byte) (i : Z) : bool :=
  bool_decide (Py.slice data i (i + 4) = MSIParser.marker).

(** The offsets, from [start] on and in ascending order, at which the marker
    occurs in [data]. *)
Definition occurrences (data : list byte) (start : Z) : list Z :=
  filter (fun i => occurs_at data i = true)
         (seqZ start (Z.of_nat (length data) - start)).

(** [bytes[i-32 : i+4]] decoded as text. *)
Definition name_at (data : list byte) (i : Z) : outcome string :=
  MSIParser.decode_ascii (Py.slice data (i - 32) (i + 4)).

(** What lines 262-267 ask of a lower-cased identifier to record [key] as a
    toolchain version. *)
Definition gives_msvc_key (package_id key : string) : Prop :=
  Py.startswith package_id "microsoft.vc." = true
  ∧ Py.endswith package_id ".tools.hostx64.targetx64.base" = true
  ∧ key = Py.join "." (Py.slice (Py.split "." package_id) 2 4)
  ∧ ∃ c rest, key = String c rest ∧ Py.chr_isnumeric c = true.

(** What lines 270-277 ask of a lower-cased identifier to record [key] as an
    SDK version. *)
Definition gives_sdk_key (package_id key : string) : Prop :=
  (Py.startswith package_id "microsoft.visualstudio.component.windows10sdk." = true
   ∨ Py.startswith package_id "microsoft.visualstudio.component.windows11sdk." = true)
  ∧ last (Py.split "." package_id) = Some key
  ∧ Py.isnumeric key = true.

(** "{tool-ns}.{major}.{minor}.tools.host{X}.target{X}.base for any
    architecture X", both segments purely numeric. *)
Definition is_toolchain_version (package_id : string) : Prop :=
  ∃ major minor X,
    package_id = "microsoft.vc." +:+ major +:+ "." +:+ minor
                 +:+ ".tools.host" +:+ X +:+ ".target" +:+ X +:+ ".base"
    ∧ Py.isnumeric major = true ∧ Py.isnumeric minor = true.

(** A field: a string that [split(".")] leaves whole. *)
Definition dot_free (s : string) : Prop := Py.split "." s = [s].

(** The packages whose lower-cased identifier is [k]. *)
Definition same_id (k : string) (p : package) : Prop := Py.lower (pkg_id p) = k.

Global Instance same_id_dec k p : Decision (same_id k p).
Proof. unfold same_id. apply _. Defined.

(** Equality of two hexadecimal digests under case-insensitive comparison. *)
Definition equal_ignoring_case (a b : string) : Prop := Py.lower a = Py.lower b.

(** The bytes a response delivers when its stream completes: the chunks up
    to the end of the stream or the first empty read. *)
Fixpoint stream_bytes (s : stream) : option (list byte) :=
  match s with
  | Eof => Some []
  | Chunk [] _ => Some []
  | Chunk chunk rest => (fun tl => chunk ++ tl) <$> stream_bytes rest
  | Broken _ => None
  end.

(** A request to the network. *)
Definition is_net_open (e : event) : bool :=
  match e with NetOpen _ => true | _ => false end.

(** "One filename per literal occurrence of the marker". *)
Definition extractCabReferences (data : list byte) : outcome (list string) :=
  mapM (name_at data) (occurrences data 0).

End Spec.

(** ** Sample inputs *)

Module Sample.

Definition initial_world : world := World ∅ ∅ 0 [].

(** No network, no archive reader, no expander. *)
Definition offline : env := Env (fun _ => None) (fun _ => None) (fun _ => None).

Definition x64_installer : VSInstaller.installer :=
  VSInstaller.Installer
    (Arguments false true None None false "x64" "x64") "x64" ["x64"].

Definition arm_installer : VSInstaller.installer :=
  VSInstaller.Installer
    (Arguments false true None None false "arm" "x64") "x64" ["arm"].

Definition msvc_versions : gmap string string :=
  {[ "14.39" := "microsoft.vc.14.39.17.9.tools.hostx64.targetx64.base" ]}.

Definition sdk_versions : gmap string string :=
  {[ "14" := "microsoft.visualstudio.component.windows10sdk.14";
     "16" := "microsoft.visualstudio.component.windows10sdk.16";
     "2" := "microsoft.visualstudio.component.windows10sdk.2";
     "9" := "microsoft.visualstudio.component.windows10sdk.9" ]}.

Definition arm64_tools : package :=
  Package "Microsoft.VC.14.39.Tools.HostARM64.TargetARM64.base" None None None.

Definition rc_tools : package :=
  Package "Microsoft.VC.14rc.39.Tools.HostX64.TargetX64.base" None None None.

(** An index that holds the compiler tool set and nothing else. *)
Definition tools_only_index : Dict.t (list package) :=
  VSInstaller.group_packages
    [Package "Microsoft.VC.14.39.17.9.Tools.HostX64.TargetX64.base" None (Some []) None].

(** An index in which the ARM redistributable is only reachable through the
    "visual c++ redistributable" package. *)
Definition arm_fallback_index : Dict.t (list package) :=
  VSInstaller.group_packages
    [Package "Microsoft.VisualCpp.CRT.Redist.ARM.OneCore.Desktop" None None
             (Some ["Microsoft.VisualCpp.CRT.Redist.Resources";
                    "Microsoft.VisualCpp.Servicing.Redist.base";
                    "Microsoft.VC.14.38.17.8.CRT.Redist.ARM.OneCore.Desktop.base"])].

(** An index that holds the conventionally named ARM redistributable. *)
Definition arm_conventional_index : Dict.t (list package) :=
  VSInstaller.group_packages
    [Package "Microsoft.VC.14.39.17.9.CRT.Redist.ARM.OneCore.Desktop.base"
             None (Some []) None].

(** An installer package that names one sub-archive. *)
Definition libs_msi : list byte :=
  bytes_of "headerXXXXXXXXXXXXXXXXXXXXXXXXXXXXXXXX.cabtrailer".

Definition libs_payload : payload :=
  Payload "https://download.example/libs.msi"
          "Installers\Windows SDK Desktop Libs x64-x86_en-us.msi"
          (Hashlib.sha256_hexdigest libs_msi).

(** An SDK whose payload list holds the installer package but not the
    sub-archive it names. *)
Definition sdk_index : Dict.t (list package) :=
  VSInstaller.group_packages
    [Package "Microsoft.VisualStudio.Component.Windows11SDK.22621" None None
             (Some ["Win11SDK_10.0.22621"]);
     Package "Win11SDK_10.0.22621" None (Some [libs_payload]) None].

Definition sdk_net : env :=
  Env (fun u => if String.eqb u "https://download.example/libs.msi"
                then Some (Response (Some (Z.of_nat (length libs_msi)))
                                    (Chunk libs_msi Eof))
                else None)
      (fun _ => None) (fun _ => None).

(** An SDK whose payload list holds none of the installer packages. *)
Definition bare_sdk_package : package :=
  Package "Win11SDK_10.0.22621" None
          (Some [Payload "https://download.example/readme.txt" "readme.txt" ""]) None.

Definition bare_sdk_index : Dict.t (list package) :=
  VSInstaller.group_packages
    [Package "Microsoft.VisualStudio.Component.Windows11SDK.22621" None None
             (Some ["Win11SDK_10.0.22621"]);
     bare_sdk_package].

(** A manifest with one tool set and one SDK, and what discovery makes of
    it. *)
Definition manifest : list package :=
  [Package "Microsoft.VC.14.39.17.9.Tools.HostX64.TargetX64.base" None (Some []) None;
   Package "Microsoft.VisualStudio.Component.Windows11SDK.22621" None None
           (Some ["Win11SDK_10.0.22621"])].

Definition manifest_sdk_versions : gmap string string :=
  {[ "22621" := "microsoft.visualstudio.component.windows11sdk.22621" ]}.

(** The installer of a run with [--msvc-version 14.39]. *)
Definition requesting_installer : VSInstaller.installer :=
  VSInstaller.Installer
    (Arguments false true (Some "14.39") None false "x64" "x64") "x64" ["x64"].

(** A payload "abc", its digest in upper case, a cache that holds it, a cache
    that holds it with the last byte changed, and a network that serves
    either. *)
Definition abc_url : string := "https://download.example/abc.bin".

Definition abc_digest : string :=
  "BA7816BF8F01CFEA414140DE5DAE2223B00361A396177A9CB410FF61F20015AD".

Definition valid_cache : world :=
  World {[ "abc.bin" := bytes_of "abc" ]} ∅ 0 [].

Definition corrupt_cache : world :=
  World {[ "abc.bin" := bytes_of "abd" ]} ∅ 0 [].

Definition good_response : response :=
  Response (Some 3) (Chunk (bytes_of "ab") (Chunk (bytes_of "c") Eof)).

Definition good_net : env :=
  Env (fun _ => Some good_response) (fun _ => None) (fun _ => None).

Definition corrupt_response : response :=
  Response (Some 3) (Chunk (bytes_of "ab") (Chunk (bytes_of "d") Eof)).

Definition corrupt_net : env :=
  Env (fun _ => Some corrupt_response) (fun _ => None) (fun _ => None).

End Sample.

(** * Properties *)

(** ** The model on concrete inputs *)

Example detect_host_windows : detect_host "AMD64" = "x64".
Proof. reflexivity. Qed.

Example sha256_abc :
  Hashlib.sha256_hexdigest (bytes_of "abc")
  = "ba7816bf8f01cfea414140de5dae2223b00361a396177a9cb410ff61f20015ad".
Proof. vm_compute. reflexivity. Qed.

Example sha256_empty :
  Hashlib.sha256_hexdigest []
  = "e3b0c44298fc1c149afbf4c8996fb92427ae41e4649b934ca495991b7852b855".
Proof. vm_compute. reflexivity. Qed.

Example sha256_two_blocks :
  Hashlib.sha256_hexdigest
    (bytes_of "abcdbcdecdefdefgefghfghighijhijkijkljklmklmnlmnomnopnopq")
  = "248d6a61d20638b8e5c026930c3e6039a33ce45964ff2167f6ecedd419db06c1".
Proof. vm_compute. reflexivity. Qed.

Example extract_cab_files_32X :
  MSIParser.extract_cab_files (bytes_of "XXXXXXXXXXXXXXXXXXXXXXXXXXXXXXXX.cab")
  = Return ["XXXXXXXXXXXXXXXXXXXXXXXXXXXXXXXX.cab"].
Proof. vm_compute. reflexivity. Qed.

Example extract_cab_files_at_start :
  MSIParser.extract_cab_files (bytes_of ".cab") = Return [].
Proof. vm_compute. reflexivity. Qed.

Example extract_cab_files_wraps :
  MSIParser.extract_cab_files (bytes_of "0123456789.cabyyyyyyyyyy")
  = Return ["23456789.cab"].
Proof. vm_compute. reflexivity. Qed.

Example sha256_constants :
  length Hashlib.round_constants = 64%nat
  ∧ head Hashlib.round_constants = Some 0x428a2f98%N
  ∧ last Hashlib.round_constants = Some 0xc67178f2%N
  ∧ head Hashlib.initial_words = Some 0x6a09e667%N
  ∧ last Hashlib.initial_words = Some 0x5be0cd19%N.
Proof. repeat split. Qed.

(** ** Facts about the built-ins *)

Lemma append_nil_l (s : string) : "" +:+ s = s.
Proof. reflexivity. Qed.

Lemma append_cons (c : ascii) (r s : string) : String c r +:+ s = String c (r +:+ s).
Proof. reflexivity. Qed.

Lemma append_nil_r (s : string) : s +:+ "" = s.
Proof. induction s as [|c s IH]; [done|]. by rewrite append_cons, IH. Qed.

Lemma append_assoc (a b c : string) : (a +:+ b) +:+ c = a +:+ (b +:+ c).
Proof. induction a as [|x a IH]; [done|]. by rewrite !append_cons, IH. Qed.

Lemma startswith_app (s p : string) :
  Py.startswith s p = true ↔ ∃ r, s = p +:+ r.
Proof.
  revert s. induction p as [|a p IH]; intros s.
  - split; [by exists s|by destruct s].
  - destruct s as [|b s]; simpl.
    + split; [done|]. intros [r Hr]. by rewrite append_cons in Hr.
    + destruct (Ascii.eqb_spec a b) as [->|Hne].
      * rewrite IH. split; intros [r Hr]; exists r.
        -- by rewrite append_cons, Hr.
        -- rewrite append_cons in Hr. by injection Hr.
      * split; [done|]. intros [r Hr]. rewrite append_cons in Hr.
        injection Hr as ? _. by subst.
Qed.

Lemma endswith_app (s p : string) :
  Py.endswith s p = true ↔ ∃ r, s = r +:+ p.
Proof.
  induction s as [|b s IH]; cbn [Py.endswith].
  - destruct (String.eqb_spec "" p) as [<-|Hne].
    + split; [by exists ""|done].
    + split; [done|]. intros [[|c r] Hr].
      * by rewrite append_nil_l in Hr.
      * by rewrite append_cons in Hr.
  - destruct (String.eqb_spec (String b s) p) as [<-|Hne].
    + split; [by exists ""|done].
    + rewrite IH. split.
      * intros [r ->]. by exists (String b r).
      * intros [[|c r] Hr].
        -- by rewrite append_nil_l in Hr.
        -- rewrite append_cons in Hr. injection Hr as _ ->. by exists r.
Qed.

Lemma split_nonempty (sep : ascii) (s : string) : Py.split sep s ≠ [].
Proof.
  destruct s as [|c s]; simpl; [done|].
  destruct (Ascii.eqb c sep); [done|]. by destruct (Py.split sep s).
Qed.

(** [sep.join(s.split(sep)) == s] *)
Lemma join_split (sep : ascii) (s : string) :
  Py.join (String sep "") (Py.split sep s) = s.
Proof.
  induction s as [|c s IH]; [done|]. cbn [Py.split].
  destruct (Ascii.eqb_spec c sep) as [->|Hne].
  - unfold Py.join in *. cbn [String.concat].
    pose proof (split_nonempty sep s).
    destruct (Py.split sep s) as [|w ws]; [done|]. simpl. by rewrite <- IH.
  - pose proof (split_nonempty sep s).
    destruct (Py.split sep s) as [|w ws]; [done|].
    unfold Py.join in *. simpl in *. destruct ws; simpl in *; by rewrite <- IH.
Qed.

(** A slice with bounds that are not negative. *)
Lemma slice_nonneg {A} (l : list A) (a b : Z) :
  0 ≤ a → 0 ≤ b →
  Py.slice l a b = take (Z.to_nat b - Z.to_nat a) (drop (Z.to_nat a) l).
Proof.
  intros Ha Hb. unfold Py.slice, Py.clip.
  destruct (Z.ltb_spec a 0); [lia|]. destruct (Z.ltb_spec b 0); [lia|].
  set (n := Z.of_nat (length l)).
  destruct (Z.le_gt_cases a n) as [Han|Han].
  - rewrite (Z.min_l a) by lia.
    destruct (Z.le_gt_cases b n) as [Hbn|Hbn].
    + rewrite (Z.min_l b) by lia. f_equal. lia.
    + rewrite (Z.min_r b) by lia.
      rewrite !take_ge; [done|..]; rewrite length_drop; lia.
  - rewrite (Z.min_r a) by lia. rewrite !drop_ge by lia. by rewrite !take_nil.
Qed.

(** ** Host detection *)

Lemma eqb_true_iff (a b : string) : String.eqb a b = true ↔ a = b.
Proof. apply String.eqb_eq. Qed.

Lemma eqb_false_iff (a b : string) : String.eqb a b = false ↔ a ≠ b.
Proof. apply String.eqb_neq. Qed.

(** C10: [detect_host] always returns one of "x64", "x86", "arm64": the
    lower-cased machine string "amd64" gives "x64", "arm64" gives "arm64",
    "x86" gives "x86", and every other string gives the default "x64". *)
Theorem C10_detect_host (platform_machine : string) :
  let machine := Py.lower platform_machine in
  detect_host platform_machine ∈ ALL_HOSTS
  ∧ (machine = "amd64" → detect_host platform_machine = "x64")
  ∧ (machine = "arm64" → detect_host platform_machine = "arm64")
  ∧ (machine = "x86" → detect_host platform_machine = "x86")
  ∧ (machine ≠ "amd64" → machine ≠ "arm64" → machine ≠ "x86" →
     detect_host platform_machine = "x64").
Proof.
  intros machine. unfold detect_host. fold machine.
  destruct (String.eqb machine "amd64") eqn:E1.
  { apply eqb_true_iff in E1. rewrite E1. repeat split; try done.
    unfold ALL_HOSTS. set_solver. }
  destruct (String.eqb machine "arm64") eqn:E2.
  { apply eqb_true_iff in E2. rewrite E2. repeat split; try done.
    unfold ALL_HOSTS. set_solver. }
  destruct (String.eqb machine "x86") eqn:E3.
  { apply eqb_true_iff in E3. rewrite E3. repeat split; try done.
    unfold ALL_HOSTS. set_solver. }
  apply eqb_false_iff in E1, E2, E3.
  repeat split; try done. unfold ALL_HOSTS. set_solver.
Qed.

Lemma C10_detect_host_witness :
  Py.lower "x86_64" ≠ "amd64" ∧ Py.lower "x86_64" ≠ "arm64"
  ∧ Py.lower "x86_64" ≠ "x86" ∧ detect_host "x86_64" = "x64"
  ∧ detect_host "AMD64" = "x64" ∧ detect_host "ARM64" = "arm64"
  ∧ detect_host "x86" = "x86".
Proof.
  assert (H1 : Py.lower "x86_64" ≠ "amd64") by (vm_compute; discriminate).
  assert (H2 : Py.lower "x86_64" ≠ "arm64") by (vm_compute; discriminate).
  assert (H3 : Py.lower "x86_64" ≠ "x86") by (vm_compute; discriminate).
  split; [exact H1|]. split; [exact H2|]. split; [exact H3|].
  split; [exact (proj2 (proj2 (proj2 (proj2 (C10_detect_host "x86_64")))) H1 H2 H3)|].
  split; [exact (proj1 (proj2 (C10_detect_host "AMD64")) eq_refl)|].
  split; [exact (proj1 (proj2 (proj2 (C10_detect_host "ARM64"))) eq_refl)|].
  exact (proj1 (proj2 (proj2 (proj2 (C10_detect_host "x86")))) eq_refl).
Defined.

(** ** Version selection *)

Lemma ltb_le (a b : string) : String.ltb a b = true → String.le a b.
Proof.
  unfold String.le, String.ltb, String.leb.
  destruct (String.compare a b); done.
Qed.

Lemma not_ltb_le (a b : string) : String.ltb a b = false → String.le b a.
Proof.
  unfold String.le, String.ltb, String.leb. rewrite (String.compare_antisym a b).
  destruct (String.compare b a); done.
Qed.

Lemma larger_upper (m y : string) :
  String.le m (Py.larger m y) ∧ String.le y (Py.larger m y).
Proof.
  unfold Py.larger. destruct (String.ltb m y) eqn:E.
  - split; [by apply ltb_le | reflexivity].
  - split; [reflexivity | by apply not_ltb_le].
Qed.

Lemma foldl_larger_spec (l : list string) (x : string) :
  foldl Py.larger x l ∈ x :: l
  ∧ ∀ k, k ∈ x :: l → String.le k (foldl Py.larger x l).
Proof.
  revert x. induction l as [|y l IH]; intros x; simpl.
  - split; [left|]. intros k Hk. apply list_elem_of_singleton in Hk as ->. reflexivity.
  - destruct (IH (Py.larger x y)) as [Hin Hmax]. split.
    + apply elem_of_cons in Hin as [->|Hin]; [|by right; right].
      unfold Py.larger. destruct (String.ltb x y); [right; left|left].
    + intros k Hk. destruct (larger_upper x y) as [Hx Hy].
      apply elem_of_cons in Hk as [->|Hk].
      * etrans; [exact Hx|]. apply Hmax. left.
      * apply elem_of_cons in Hk as [->|Hk].
        -- etrans; [exact Hy|]. apply Hmax. left.
        -- apply Hmax. by right.
Qed.

(** [max(sorted(l))] is an element of [l] that no element of [l] exceeds. *)
Lemma max_sorted_spec (l : list string) :
  l ≠ [] →
  ∃ m, Py.max_str (Py.sorted l) = Return m ∧ m ∈ l ∧ ∀ k, k ∈ l → String.le k m.
Proof.
  intros Hne. unfold Py.sorted.
  pose proof (merge_sort_Permutation String.le l) as Hperm.
  destruct (merge_sort String.le l) as [|x l'] eqn:E.
  { apply Permutation_nil_l in Hperm. done. }
  simpl. eexists; split; [reflexivity|].
  destruct (foldl_larger_spec l' x) as [Hin Hmax].
  split.
  - by rewrite <- Hperm.
  - intros k Hk. apply Hmax. by rewrite Hperm.
Qed.

Lemma version_keys_dom (versions : gmap string string) (k : string) :
  k ∈ VSInstaller.version_keys versions ↔ k ∈ dom versions.
Proof.
  unfold VSInstaller.version_keys. rewrite elem_of_dom, list_elem_of_fmap. split.
  - intros [[k' v] [-> Hin]]. apply elem_of_map_to_list in Hin. by exists v.
  - intros [v Hv]. exists (k, v). split; [done|]. by apply elem_of_map_to_list.
Qed.

Lemma version_keys_nonempty (versions : gmap string string) :
  versions ≠ ∅ → VSInstaller.version_keys versions ≠ [].
Proof.
  intros Hne Hnil. apply Hne. apply map_to_list_empty_iff.
  unfold VSInstaller.version_keys in Hnil. by apply fmap_nil_inv in Hnil.
Qed.

(** The selected key when none is requested. *)
Lemma default_version (versions : gmap string string) :
  versions ≠ ∅ →
  ∃ ver package_id,
    Py.or_else None (Py.max_str (Py.sorted (VSInstaller.version_keys versions))) = Return ver
    ∧ versions !! ver = Some package_id
    ∧ ∀ k, k ∈ dom versions → String.le k ver.
Proof.
  intros Hne.
  destruct (max_sorted_spec _ (version_keys_nonempty _ Hne)) as (m & Hm & Hin & Hmax).
  apply version_keys_dom, elem_of_dom in Hin as [pid Hpid].
  exists m, pid. split; [exact Hm|]. split; [exact Hpid|].
  intros k Hk. apply Hmax. by apply version_keys_dom.
Qed.



(** The candidates "14", "16", "2" and "9": the string maximum "9" is
    selected, not the numeric maximum "16". *)
Example select_versions_string_max :
  (VSInstaller.select_versions Sample.x64_installer Sample.msvc_versions
     Sample.sdk_versions Sample.initial_world).1
  = Return ("14.39.17.9", "9",
            "microsoft.vc.14.39.17.9.tools.hostx64.targetx64.base",
            "microsoft.visualstudio.component.windows10sdk.9").
Proof. vm_compute. reflexivity. Qed.

(** ** Version discovery *)

Lemma setdefault_append_keys {V} (d : Dict.t (list V)) (k : string) (x : V) (k' : string) :
  k' ∈ Dict.keys (Dict.setdefault_append d k x) ↔ k' = k ∨ k' ∈ Dict.keys d.
Proof.
  unfold Dict.keys. induction d as [|[k0 v] d IH]; simpl.
  - rewrite list_elem_of_singleton. split; [auto|]. intros [?|H]; [done|]. by apply elem_of_nil in H.
  - destruct (String.eqb_spec k0 k) as [->|Hne]; simpl.
    + rewrite !elem_of_cons. tauto.
    + rewrite !elem_of_cons, IH. tauto.
Qed.

Lemma group_packages_keys (vs_packages : list package) (k : string) :
  k ∈ Dict.keys (VSInstaller.group_packages vs_packages)
  ↔ ∃ p, p ∈ vs_packages ∧ Py.lower (pkg_id p) = k.
Proof.
  unfold VSInstaller.group_packages.
  assert (H : ∀ d, k ∈ Dict.keys (foldl (λ packages package,
                        Dict.setdefault_append packages (Py.lower (pkg_id package)) package)
                      d vs_packages)
               ↔ k ∈ Dict.keys d ∨ ∃ p, p ∈ vs_packages ∧ Py.lower (pkg_id p) = k).
  { induction vs_packages as [|p l IH]; intros d; simpl.
    - split; [auto|]. intros [?|(p & Hp & _)]; [done|]. by apply elem_of_nil in Hp.
    - rewrite IH, setdefault_append_keys. split.
      + intros [[->|?]|(q & Hq & Hk)]; [right; exists p; split; [left|done] |by left|].
        right. exists q. split; [by right|done].
      + intros [?|(q & Hq & Hk)]; [by left; right|].
        apply elem_of_cons in Hq as [->|Hq]; [by left; left|].
        right. by exists q. }
  rewrite H. split; [|auto]. intros [Hk|?]; [|done]. by apply elem_of_nil in Hk.
Qed.

(** The third and fourth fields exist and are not both empty. *)
Lemma msvc_version_nonempty (package_id : string) :
  Py.startswith package_id "microsoft.vc." = true →
  Py.endswith package_id ".tools.hostx64.targetx64.base" = true →
  ∃ c rest, Py.join "." (Py.slice (Py.split "." package_id) 2 4) = String c rest.
Proof.
  intros [r ->]%startswith_app Hend.
  rewrite !append_cons, append_nil_l.
  pose proof (split_nonempty "." r) as Hne.
  pose proof (join_split "." r) as Hjoin.
  cbn [Py.split]. simpl Ascii.eqb. cbv iota.
  destruct (Py.split "." r) as [|w0 ws]; [done|].
  rewrite slice_nonneg by lia. simpl.
  destruct ws as [|w1 ws].
  - simpl in *. subst w0. destruct r as [|c r]; [|by eauto].
    by vm_compute in Hend.
  - unfold Py.join. simpl. destruct w0 as [|c w0]; rewrite ?append_nil_l, ?append_cons; eauto.
Qed.

Lemma msvc_sdk_exclusive (package_id : string) :
  Py.startswith package_id "microsoft.vc." = true →
  Py.startswith package_id "microsoft.visualstudio.component.windows10sdk."
  || Py.startswith package_id "microsoft.visualstudio.component.windows11sdk." = false.
Proof.
  intros [r ->]%startswith_app. rewrite !append_cons. reflexivity.
Qed.

Lemma elem_of_dom_insert (m : gmap string string) (k v key : string) :
  key ∈ dom (<[k := v]> m) ↔ key = k ∨ key ∈ dom m.
Proof. rewrite dom_insert_L, elem_of_union, elem_of_singleton. tauto. Qed.

(** One turn of the discovery loop never fails, and records at most one key. *)
Lemma classify_spec (msvc_versions sdk_versions : gmap string string)
    (package_id : string) :
  ∃ msvc' sdk',
    VSInstaller.classify (msvc_versions, sdk_versions) package_id = Return (msvc', sdk')
    ∧ (∀ key, key ∈ dom msvc' ↔ key ∈ dom msvc_versions ∨ Spec.gives_msvc_key package_id key)
    ∧ (∀ key, key ∈ dom sdk' ↔ key ∈ dom sdk_versions ∨ Spec.gives_sdk_key package_id key).
Proof.
  unfold VSInstaller.classify, Spec.gives_msvc_key, Spec.gives_sdk_key.
  destruct (Py.startswith package_id "microsoft.vc.") eqn:Hpre; simpl andb.
  - pose proof (msvc_sdk_exclusive _ Hpre) as Hexcl.
    apply orb_false_iff in Hexcl as [H10 H11]. rewrite H10, H11.
    destruct (Py.endswith package_id ".tools.hostx64.targetx64.base") eqn:Hend.
    + destruct (msvc_version_nonempty _ Hpre Hend) as (c & rest & Hv). rewrite Hv.
      cbn [Py.first_char mbind outcome_bind].
      destruct (Py.chr_isnumeric c) eqn:Hnum; eexists _, _; (split; [reflexivity|]); split;
        intros key; rewrite ?elem_of_dom_insert.
      * split.
        -- intros [->|?]; [right|by left]. repeat split; eauto.
        -- intros [?|(_ & _ & -> & _)]; [by right|by left].
      * split; [auto|]. intros [?|([?|?] & _)]; done.
      * split; [auto|]. intros [?|(_ & _ & -> & c' & rest' & [= <- _] & Hc)]; [done|congruence].
      * split; [auto|]. intros [?|([?|?] & _)]; done.
    + simpl orb. cbv iota. eexists _, _. split; [reflexivity|]. split; intros key.
      * split; [auto|]. intros [?|(_ & ? & _)]; done.
      * split; [auto|]. intros [?|([?|?] & _)]; done.
  - destruct (Py.startswith package_id "microsoft.visualstudio.component.windows10sdk."
              || Py.startswith package_id "microsoft.visualstudio.component.windows11sdk.")
      eqn:Hsdk.
    + unfold Py.last_item.
      pose proof (split_nonempty "." package_id) as Hne.
      destruct (last (Py.split "." package_id)) as [version|] eqn:Hlast.
      2:{ apply last_None in Hlast. done. }
      cbn [mbind outcome_bind].
      apply orb_true_iff in Hsdk.
      destruct (Py.isnumeric version) eqn:Hnum; eexists _, _; (split; [reflexivity|]); split;
        intros key; rewrite ?elem_of_dom_insert.
      * split; [auto|]. intros [?|(? & _)]; done.
      * split.
        -- intros [->|?]; [right|by left]. done.
        -- intros [?|(_ & [= ->] & _)]; [by right|by left].
      * split; [auto|]. intros [?|(? & _)]; done.
      * split; [auto|]. intros [?|(_ & [= ->] & ?)]; [done|congruence].
    + apply orb_false_iff in Hsdk as [H10 H11].
      eexists _, _. split; [reflexivity|]. split; intros key.
      * split; [auto|]. intros [?|(? & _)]; done.
      * split; [auto|]. intros [?|([?|?] & _)]; congruence.
Qed.

Lemma classify_all_spec (package_ids : list string)
    (msvc_versions sdk_versions : gmap string string) :
  ∃ msvc' sdk',
    VSInstaller.classify_all (msvc_versions, sdk_versions) package_ids = Return (msvc', sdk')
    ∧ (∀ key, key ∈ dom msvc' ↔
         key ∈ dom msvc_versions
         ∨ ∃ package_id, package_id ∈ package_ids ∧ Spec.gives_msvc_key package_id key)
    ∧ (∀ key, key ∈ dom sdk' ↔
         key ∈ dom sdk_versions
         ∨ ∃ package_id, package_id ∈ package_ids ∧ Spec.gives_sdk_key package_id key).
Proof.
  revert msvc_versions sdk_versions.
  induction package_ids as [|package_id rest IH]; intros msvc_versions sdk_versions.
  - exists msvc_versions, sdk_versions. split; [done|].
    split; intros key; (split; [auto|]); intros [?|(? & H & _)]; try done;
      by apply elem_of_nil in H.
  - cbn [VSInstaller.classify_all].
    destruct (classify_spec msvc_versions sdk_versions package_id)
      as (m1 & s1 & -> & Hm1 & Hs1).
    cbn [mbind outcome_bind].
    destruct (IH m1 s1) as (m2 & s2 & -> & Hm2 & Hs2).
    exists m2, s2. split; [done|]. split; intros key.
    + rewrite Hm2, Hm1. split.
      * intros [[?|?]|(q & Hq & ?)]; [by left| |].
        -- right. exists package_id. split; [left|done].
        -- right. exists q. split; [by right|done].
      * intros [?|(q & Hq & ?)]; [by left; left|].
        apply elem_of_cons in Hq as [->|Hq]; [by left; right|]. right. by exists q.
    + rewrite Hs2, Hs1. split.
      * intros [[?|?]|(q & Hq & ?)]; [by left| |].
        -- right. exists package_id. split; [left|done].
        -- right. exists q. split; [by right|done].
      * intros [?|(q & Hq & ?)]; [by left; left|].
        apply elem_of_cons in Hq as [->|Hq]; [by left; right|]. right. by exists q.
Qed.

(** C1 (amended): version discovery never fails, and [key] is recorded as a
    toolchain version exactly when some package's lower-cased identifier
    starts with "microsoft.vc.", ends with ".tools.hostx64.targetx64.base",
    has [key] as its third and fourth dot-separated fields, and the first
    character of [key] is numeric. *)
Theorem C1_toolchain_version_keys (vs_packages : list package) :
  ∃ packages msvc_versions sdk_versions,
    VSInstaller.parse_available_versions vs_packages
    = Return (packages, msvc_versions, sdk_versions)
    ∧ ∀ key, key ∈ dom msvc_versions ↔
        ∃ p, p ∈ vs_packages ∧ Spec.gives_msvc_key (Py.lower (pkg_id p)) key.
Proof.
  unfold VSInstaller.parse_available_versions.
  destruct (classify_all_spec (Dict.keys (VSInstaller.group_packages vs_packages)) ∅ ∅)
    as (m & s & Hrun & Hm & _).
  exists (VSInstaller.group_packages vs_packages), m, s. rewrite Hrun.
  split; [done|]. intros key. rewrite Hm, dom_empty_L. split.
  - intros [H|(package_id & Hin & Hkey)]; [by apply elem_of_empty in H|].
    apply group_packages_keys in Hin as (p & Hp & <-). by exists p.
  - intros (p & Hp & Hkey). right. exists (Py.lower (pkg_id p)). split; [|done].
    apply group_packages_keys. by exists p.
Qed.

(** The identifier of the ARM64-hosted tool set matches the pattern and
    gives no key; an identifier whose major segment is "14rc" does not match
    it and gives the key "14rc.39". *)
Lemma C1_counterexample :
  (Spec.is_toolchain_version (Py.lower (pkg_id Sample.arm64_tools))
   ∧ VSInstaller.parse_available_versions [Sample.arm64_tools]
     = Return ([("microsoft.vc.14.39.tools.hostarm64.targetarm64.base", [Sample.arm64_tools])],
               ∅, ∅))
  ∧ (¬ Spec.is_toolchain_version (Py.lower (pkg_id Sample.rc_tools))
     ∧ VSInstaller.parse_available_versions [Sample.rc_tools]
       = Return ([("microsoft.vc.14rc.39.tools.hostx64.targetx64.base", [Sample.rc_tools])],
                 {[ "14rc.39" := "microsoft.vc.14rc.39.tools.hostx64.targetx64.base" ]},
                 ∅)).
Proof.
  split; split.
  - exists "14", "39", "arm64". by vm_compute.
  - vm_compute. reflexivity.
  - intros (major & minor & X & Heq & Hmaj & Hmin).
    vm_compute in Heq.
    destruct major as [|c1 [|c2 [|c3 major]]]; simplify_eq; done.
  - vm_compute. reflexivity.
Qed.

(** ** Package expansion *)

(** The expansion only adds names, and adds the redistributable of every
    target. *)
Lemma expand_targets_spec (host : string) (packages : Dict.t (list package))
    (msvc_version : string) (targets : list string) (msvc_packages names : list string) :
  VSInstaller.expand_targets host packages msvc_version targets msvc_packages
  = Return names →
  msvc_packages ⊆ names
  ∧ ∀ target, target ∈ targets →
      ∃ id, VSInstaller.redist_package packages msvc_version target = Return id
            ∧ id ∈ names.
Proof.
  revert msvc_packages. induction targets as [|t rest IH]; intros acc Hrun.
  - injection Hrun as <-. split; [done|]. intros target H. by apply elem_of_nil in H.
  - cbn [VSInstaller.expand_targets] in Hrun.
    destruct (VSInstaller.redist_package packages msvc_version t) as [id|e|arg] eqn:Hid;
      [|done..].
    cbn [mbind outcome_bind] in Hrun.
    destruct (IH _ Hrun) as [Hsub Hall]. split.
    + intros x Hx. apply Hsub. rewrite !elem_of_app. auto.
    + intros target [->|Hin]%elem_of_cons; [|by apply Hall].
      exists id. split; [done|]. apply Hsub. rewrite !elem_of_app, list_elem_of_singleton. auto.
Qed.

Lemma redist_package_conventional (packages : Dict.t (list package))
    (msvc_version target : string) :
  Dict.contains packages (VSInstaller.redist_conventional msvc_version target) = true →
  VSInstaller.redist_package packages msvc_version target
  = Return (VSInstaller.redist_conventional msvc_version target).
Proof. intros H. unfold VSInstaller.redist_package. by rewrite H. Qed.

Lemma find_first_split {A} (condition : A → bool) (items : list A) (x : A) :
  Py.find_first condition items = Some x →
  ∃ before after,
    items = before ++ x :: after
    ∧ Forall (λ y, condition y = false) before
    ∧ condition x = true.
Proof.
  induction items as [|y items IH]; simpl; [done|].
  destruct (condition y) eqn:Hy.
  - intros [= ->]. exists [], items. by repeat split.
  - intros H. destruct (IH H) as (before & after & -> & Hb & Hx).
    exists (y :: before), after. repeat split; [|done]. by constructor.
Qed.

Lemma redist_package_fallback (packages : Dict.t (list package))
    (msvc_version target id : string) :
  Dict.contains packages (VSInstaller.redist_conventional msvc_version target) = false →
  VSInstaller.redist_package packages msvc_version target = Return id →
  ∃ redist others deps before dep after,
    Dict.get packages
      ("microsoft.visualcpp.crt.redist." +:+ target +:+ VSInstaller.redist_suffix target)
    = Some (redist :: others)
    ∧ dependencies redist = Some deps
    ∧ deps = before ++ dep :: after
    ∧ Forall (λ d, Py.endswith d ".base" = false) before
    ∧ Py.endswith dep ".base" = true
    ∧ id = Py.lower dep.
Proof.
  intros Hc. unfold VSInstaller.redist_package. rewrite Hc. cbn [negb].
  unfold Dict.getitem.
  destruct (Dict.get packages _) as [items|] eqn:Hget; [|done].
  cbn [mbind outcome_bind].
  destruct items as [|redist others]; [done|].
  cbn [Py.find_first not_none mbind outcome_bind].
  destruct (dependencies redist) as [deps|] eqn:Hdeps; [|done].
  cbn [field mbind outcome_bind].
  destruct (Py.find_first _ deps) as [dep|] eqn:Hdep; [|done].
  cbn [not_none mbind outcome_bind]. intros [= <-].
  destruct (find_first_split _ _ _ Hdep) as (before & after & Hd & Hb & Hx).
  exists redist, others, deps, before, dep, after. repeat split; assumption || reflexivity.
Qed.

(** C8 (amended): for every requested target the expansion appends the
    redistributable that [redist_package] finds.  Whenever the conventionally
    named identifier is in the index it is that one, which for "arm" ends in
    ".crt.redist.arm.onecore.desktop.base" and for every other target in
    ".crt.redist.{target}.base".  When it is absent, the identifier is the
    lower-cased first dependency ending in ".base" of the first package
    filed under "microsoft.visualcpp.crt.redist.{target}" (with
    ".onecore.desktop" appended for "arm"): no dependency listed before it
    ends in ".base". *)
Theorem C8_redistributable_suffix (self : VSInstaller.installer)
    (packages : Dict.t (list package)) (msvc_version target : string)
    (names : list string) :
  VSInstaller.expand_packages self packages msvc_version = Return names →
  target ∈ VSInstaller.self_targets self →
  let conventional :=
    if String.eqb target "arm"
    then "microsoft.vc." +:+ msvc_version +:+ ".crt.redist.arm.onecore.desktop.base"
    else "microsoft.vc." +:+ msvc_version +:+ ".crt.redist." +:+ target +:+ ".base" in
  let redist_name :=
    if String.eqb target "arm"
    then "microsoft.visualcpp.crt.redist.arm.onecore.desktop"
    else "microsoft.visualcpp.crt.redist." +:+ target in
  ∃ id, VSInstaller.redist_package packages msvc_version target = Return id
        ∧ id ∈ names
        ∧ (Dict.contains packages conventional = true → id = conventional)
        ∧ (Dict.contains packages conventional = false →
           ∃ redist others deps before dep after,
             Dict.get packages redist_name = Some (redist :: others)
             ∧ dependencies redist = Some deps
             ∧ deps = before ++ dep :: after
             ∧ Forall (λ d, Py.endswith d ".base" = false) before
             ∧ Py.endswith dep ".base" = true
             ∧ id = Py.lower dep).
Proof.
  intros Hrun Hin conventional redist_name.
  destruct (expand_targets_spec _ _ _ _ _ _ Hrun) as [_ Hall].
  destruct (Hall target Hin) as (id & Hid & Hnames).
  exists id. split; [done|]. split; [done|].
  assert (Hconv : conventional = VSInstaller.redist_conventional msvc_version target).
  { unfold conventional, VSInstaller.redist_conventional, VSInstaller.redist_suffix.
    destruct (String.eqb_spec target "arm") as [->|_]; [reflexivity|].
    by rewrite append_nil_l. }
  assert (Hname : redist_name
            = "microsoft.visualcpp.crt.redist." +:+ target
                +:+ VSInstaller.redist_suffix target).
  { unfold redist_name, VSInstaller.redist_suffix.
    destruct (String.eqb_spec target "arm") as [->|_]; [reflexivity|].
    by rewrite append_nil_r. }
  rewrite Hconv, Hname. split; intros Hc.
  - rewrite (redist_package_conventional _ _ _ Hc) in Hid. by injection Hid.
  - exact (redist_package_fallback _ _ _ _ Hc Hid).
Qed.

Lemma C8_redistributable_suffix_witness :
  (∃ names id,
     VSInstaller.expand_packages Sample.arm_installer Sample.arm_conventional_index
       "14.39.17.9" = Return names
     ∧ VSInstaller.redist_package Sample.arm_conventional_index "14.39.17.9" "arm"
       = Return id
     ∧ id ∈ names
     ∧ id = "microsoft.vc.14.39.17.9.crt.redist.arm.onecore.desktop.base")
  ∧ (∃ names id redist others deps before dep after,
       VSInstaller.expand_packages Sample.arm_installer Sample.arm_fallback_index
         "14.39.17.9" = Return names
       ∧ VSInstaller.redist_package Sample.arm_fallback_index "14.39.17.9" "arm"
         = Return id
       ∧ id ∈ names
       ∧ Dict.get Sample.arm_fallback_index
           "microsoft.visualcpp.crt.redist.arm.onecore.desktop"
         = Some (redist :: others)
       ∧ dependencies redist = Some deps
       ∧ deps = before ++ dep :: after
       ∧ Forall (λ d, Py.endswith d ".base" = false) before
       ∧ Py.endswith dep ".base" = true
       ∧ id = Py.lower dep).
Proof.
  split.
  - eexists.
    destruct (C8_redistributable_suffix Sample.arm_installer
                Sample.arm_conventional_index "14.39.17.9" "arm" _
                ltac:(vm_compute; reflexivity) ltac:(vm_compute; left))
      as (id & Hid & Hin & Hconv & _).
    exists id. split; [vm_compute; reflexivity|]. split; [exact Hid|].
    split; [exact Hin|]. apply Hconv. vm_compute. reflexivity.
  - eexists.
    destruct (C8_redistributable_suffix Sample.arm_installer
                Sample.arm_fallback_index "14.39.17.9" "arm" _
                ltac:(vm_compute; reflexivity) ltac:(vm_compute; left))
      as (id & Hid & Hin & _ & Hfallback).
    destruct Hfallback
      as (redist & others & deps & before & dep & after & H);
      [vm_compute; reflexivity|].
    exists id, redist, others, deps, before, dep, after.
    split; [vm_compute; reflexivity|]. split; [exact Hid|].
    split; [exact Hin|]. exact H.
Defined.

(** With the conventional name absent, the redistributable appended for
    "arm" is the first ".base" dependency of the look-up package, whatever
    its suffix. *)
Lemma C8_counterexample :
  VSInstaller.expand_packages Sample.arm_installer Sample.arm_fallback_index "14.39.17.9"
  = Return [ "microsoft.visualcpp.dia.sdk";
             "microsoft.vc.14.39.17.9.crt.headers.base";
             "microsoft.vc.14.39.17.9.crt.source.base";
             "microsoft.vc.14.39.17.9.asan.headers.base";
             "microsoft.vc.14.39.17.9.pgo.headers.base";
             "microsoft.vc.14.39.17.9.tools.hostx64.targetarm.base";
             "microsoft.vc.14.39.17.9.tools.hostx64.targetarm.res.base";
             "microsoft.vc.14.39.17.9.crt.arm.desktop.base";
             "microsoft.vc.14.39.17.9.crt.arm.store.base";
             "microsoft.vc.14.39.17.9.premium.tools.hostx64.targetarm.base";
             "microsoft.vc.14.39.17.9.pgo.arm.base";
             "microsoft.visualcpp.servicing.redist.base" ]
  ∧ Py.endswith "microsoft.visualcpp.servicing.redist.base"
                ".crt.redist.arm.onecore.desktop.base" = false.
Proof. split; vm_compute; reflexivity. Qed.

(** C7: at an index that holds neither the conventionally named
    redistributable nor the package it is looked up through, the run stops
    with [KeyError] before any package is reported or downloaded. *)
Theorem C7_absent_redistributable_aborts (net : env) (w : world) :
  Dict.contains Sample.tools_only_index "microsoft.vc.14.39.17.9.crt.redist.x64.base"
  = false
  ∧ Dict.contains Sample.tools_only_index "microsoft.visualcpp.crt.redist.x64" = false
  ∧ VSInstaller.download_msvc net Sample.x64_installer Sample.tools_only_index
      "14.39.17.9" w
    = (Raise (KeyError "microsoft.visualcpp.crt.redist.x64"),
       log (PrintLine "Downloading MSVC packages...") w).
Proof. repeat split. Qed.

(** C6: at an SDK whose installer package names a sub-archive that its
    payload list does not hold, the download of the sub-archives stops with
    [TypeError]. *)
Theorem C6_unlisted_cab_aborts :
  MSIParser.extract_cab_files Sample.libs_msi
  = Return ["XXXXXXXXXXXXXXXXXXXXXXXXXXXXXXXX.cab"]
  ∧ VSInstaller.find_installer_payload
      (Package "Win11SDK_10.0.22621" None (Some [Sample.libs_payload]) None)
      "XXXXXXXXXXXXXXXXXXXXXXXXXXXXXXXX.cab"
    = Return None
  ∧ (VSInstaller.download_sdk Sample.sdk_net Sample.x64_installer Sample.sdk_index
       "microsoft.visualstudio.component.windows11sdk.22621" Sample.initial_world).1
    = Raise TypeError.
Proof. repeat split; vm_compute; reflexivity. Qed.

(** ** Sub-archive references *)

Section cab_references.

Import MSIParser Spec.

Lemma starts_with_take (l sub : list byte) :
  starts_with l sub = true ↔ take (length sub) l = sub.
Proof.
  revert l. induction sub as [|a sub IH]; intros [|b l]; simpl; try done.
  destruct (Byte.eqb a b) eqn:E.
  - apply Byte.byte_dec_bl in E as ->. rewrite IH. split; [by intros ->|by intros [=]].
  - split; [done|]. intros [= -> _]. by rewrite Byte.byte_dec_lb in E.
Qed.

Lemma slice_window (data : list byte) (i : Z) :
  0 ≤ i → Py.slice data i (i + 4) = take 4 (drop (Z.to_nat i) data).
Proof.
  intros Hi. unfold Py.slice, Py.clip.
  destruct (Z.ltb_spec i 0); [lia|]. destruct (Z.ltb_spec (i + 4) 0); [lia|].
  destruct (Z.le_gt_cases (i + 4) (Z.of_nat (length data))) as [Hle|Hgt].
  - rewrite (Z.min_l i), (Z.min_l (i + 4)) by lia. f_equal. lia.
  - rewrite (Z.min_r (i + 4)) by lia.
    destruct (Z.le_gt_cases i (Z.of_nat (length data))) as [Hle'|Hgt'].
    + rewrite (Z.min_l i) by lia. rewrite !take_ge; [done|..]; rewrite length_drop; lia.
    + rewrite (Z.min_r i) by lia. rewrite !drop_ge by lia. by rewrite !take_nil.
Qed.

Lemma occurs_at_starts_with (data : list byte) (i : Z) :
  0 ≤ i → occurs_at data i = starts_with (drop (Z.to_nat i) data) marker.
Proof.
  intros Hi. unfold occurs_at. rewrite slice_window by done.
  destruct (starts_with _ _) eqn:E.
  - apply starts_with_take in E. by apply bool_decide_eq_true.
  - apply bool_decide_eq_false. intros H.
    apply (proj2 (starts_with_take _ marker)) in H. congruence.
Qed.

Lemma occurs_at_bound (data : list byte) (i : Z) :
  0 ≤ i → occurs_at data i = true → i + 4 ≤ Z.of_nat (length data).
Proof.
  intros Hi H. rewrite occurs_at_starts_with in H by done.
  apply starts_with_take in H. apply (f_equal length) in H.
  rewrite length_take, length_drop in H.
  change (length marker) with 4%nat in H. lia.
Qed.

(** The marker does not overlap itself. *)
Lemma occurs_at_no_overlap (data : list byte) (i d : Z) :
  0 ≤ i → occurs_at data i = true → 1 ≤ d ≤ 3 → occurs_at data (i + d) = false.
Proof.
  intros Hi H Hd. rewrite occurs_at_starts_with in * by lia.
  replace (Z.to_nat (i + d)) with (Z.to_nat i + Z.to_nat d)%nat by lia.
  rewrite <- drop_drop.
  change marker with [x2e; x63; x61; x62] in *.
  destruct (drop (Z.to_nat i) data) as [|b0 [|b1 [|b2 [|b3 rest]]]];
    simpl in H; repeat case_match; try done.
  all: repeat match goal with
       | E : Byte.eqb _ _ = true |- _ => apply Byte.byte_dec_bl in E; subst
       end.
  all: assert (d = 1 ∨ d = 2 ∨ d = 3) as [-> | [-> | ->]] by lia; reflexivity.
Qed.

(** [find_in] returns the first match or [-1]. *)
Lemma find_in_spec (l sub : list byte) (i : Z) :
  (find_in l sub i = -1 ∧ ∀ k : nat, starts_with (drop k l) sub = false)
  ∨ (∃ k : nat, find_in l sub i = i + Z.of_nat k
       ∧ starts_with (drop k l) sub = true
       ∧ ∀ j : nat, (j < k)%nat → starts_with (drop j l) sub = false).
Proof.
  revert i. induction l as [|b l IH]; intros i; cbn [find_in].
  - destruct (starts_with [] sub) eqn:E.
    + right. exists 0%nat. split; [lia|]. split; [done|]. intros; lia.
    + left. split; [done|]. intros k. by rewrite drop_nil.
  - destruct (starts_with (b :: l) sub) eqn:E.
    + right. exists 0%nat. split; [lia|]. split; [done|]. intros; lia.
    + destruct (IH (i + 1)) as [[Hr Hnone]|(k & Hr & Hk & Hbefore)].
      * left. split; [done|]. intros [|k]; [done|]. apply Hnone.
      * right. exists (S k). split; [lia|]. split; [done|].
        intros [|j] Hj; [done|]. apply Hbefore. lia.
Qed.

(** [data.find(b".cab", start)] for a non-negative [start]. *)
Lemma find_marker_spec (data : list byte) (start : Z) :
  0 ≤ start →
  (find data marker start = -1 ∧ ∀ i, start ≤ i → occurs_at data i = false)
  ∨ (start ≤ find data marker start
     ∧ occurs_at data (find data marker start) = true
     ∧ ∀ i, start ≤ i < find data marker start → occurs_at data i = false).
Proof.
  intros Hs. unfold find. destruct (Z.ltb_spec (Z.of_nat (length data)) start) as [Hlt|Hle].
  - left. split; [done|]. intros i Hi.
    destruct (occurs_at data i) eqn:E; [|done].
    apply occurs_at_bound in E; lia.
  - unfold Py.clip. destruct (Z.ltb_spec start 0); [lia|].
    rewrite Z.min_l by lia.
    destruct (find_in_spec (drop (Z.to_nat start) data) marker start)
      as [[Hr Hnone]|(k & Hr & Hk & Hbefore)].
    + left. split; [done|]. intros i Hi. rewrite occurs_at_starts_with by lia.
      specialize (Hnone (Z.to_nat (i - start))). rewrite drop_drop in Hnone.
      by replace (Z.to_nat start + Z.to_nat (i - start))%nat with (Z.to_nat i) in Hnone by lia.
    + right. rewrite Hr. split; [lia|]. split.
      * rewrite occurs_at_starts_with by lia. rewrite drop_drop in Hk.
        by replace (Z.to_nat (start + Z.of_nat k)) with (Z.to_nat start + k)%nat by lia.
      * intros i Hi. rewrite occurs_at_starts_with by lia.
        specialize (Hbefore (Z.to_nat (i - start))). rewrite drop_drop in Hbefore.
        replace (Z.to_nat start + Z.to_nat (i - start))%nat with (Z.to_nat i) in Hbefore by lia.
        apply Hbefore. lia.
Qed.

Lemma filter_none {A} (P : A → Prop) `{∀ x, Decision (P x)} (l : list A) :
  (∀ x, x ∈ l → ¬ P x) → filter P l = [].
Proof.
  induction l as [|x l IH]; intros Hl; [done|].
  rewrite filter_cons_False by (apply Hl; set_solver). apply IH. set_solver.
Qed.

Lemma occurrences_none (data : list byte) (a : Z) :
  (∀ i, a ≤ i → occurs_at data i = false) → occurrences data a = [].
Proof.
  intros Hnone. apply filter_none. intros i Hi%elem_of_seqZ.
  rewrite Hnone by lia. done.
Qed.

Lemma occurrences_skip (data : list byte) (a b : Z) :
  a ≤ b → (∀ i, a ≤ i < b → occurs_at data i = false) →
  occurrences data a = occurrences data b.
Proof.
  intros Hab Hnone. unfold occurrences.
  set (n := Z.of_nat (length data)).
  destruct (Z.le_gt_cases b n) as [Hbn|Hbn].
  - replace (n - a) with ((b - a) + (n - b)) by lia.
    rewrite seqZ_app, filter_app by lia.
    rewrite filter_none; [by replace (a + (b - a)) with b by lia|].
    intros i Hi%elem_of_seqZ. rewrite Hnone by lia. done.
  - rewrite (seqZ_nil b) by lia. rewrite filter_nil.
    apply filter_none. intros i Hi%elem_of_seqZ. rewrite Hnone by lia. done.
Qed.

Lemma occurrences_first (data : list byte) (a r : Z) :
  0 ≤ a ≤ r → occurs_at data r = true →
  (∀ i, a ≤ i < r → occurs_at data i = false) →
  occurrences data a = r :: occurrences data (r + 4).
Proof.
  intros Har Hr Hnone.
  rewrite (occurrences_skip data a r) by (done || lia).
  pose proof (occurs_at_bound data r ltac:(lia) Hr) as Hbound.
  unfold occurrences at 1. rewrite seqZ_cons by lia.
  rewrite filter_cons_True by done. f_equal.
  replace (Z.pred (Z.of_nat (length data) - r))
    with (Z.of_nat (length data) - Z.succ r) by lia.
  change (occurrences data (Z.succ r) = occurrences data (r + 4)).
  apply occurrences_skip; [lia|]. intros i Hi.
  replace i with (r + (i - r)) by lia. apply occurs_at_no_overlap; [lia|done|lia].
Qed.

Lemma outcome_bind_ret {A} (m : outcome A) : (x ← m; Return x) = m.
Proof. by destruct m. Qed.

Lemma outcome_bind_assoc {A B C} (m : outcome A) (f : A → outcome B) (g : B → outcome C) :
  (y ← (x ← m; f x); g y) = (x ← m; y ← f x; g y).
Proof. by destruct m. Qed.

(** The loop, for any position it can be in and enough fuel. *)
Lemma scan_spec (data : list byte) (fuel : nat) (index : Z) (cab_files : list string) :
  0 ≤ index + 4 →
  (0 < fuel)%nat →
  Z.of_nat (length data) - (index + 4) < Z.of_nat fuel →
  scan fuel data index cab_files
  = (names ← mapM (name_at data) (occurrences data (index + 4));
     Return (cab_files ++ names)).
Proof.
  revert index cab_files. induction fuel as [|fuel IH]; intros index cab_files Hi Hpos Hfuel.
  { lia. }
  cbn [scan].
  destruct (find_marker_spec data (index + 4) Hi) as [[Hr Hnone]|(Hle & Hocc & Hnone)].
  - rewrite Hr. simpl. rewrite occurrences_none by done. simpl.
    by rewrite app_nil_r.
  - set (r := find data marker (index + 4)) in *.
    pose proof (occurs_at_bound data r ltac:(lia) Hocc) as Hbound.
    destruct (Z.ltb_spec r 0); [lia|].
    rewrite (occurrences_first data (index + 4) r) by (done || lia).
    cbn [mapM]. fold (name_at data r).
    destruct (name_at data r) as [cab_name|e|arg]; try done.
    cbn. rewrite IH by lia.
    destruct (mapM (name_at data) (occurrences data (r + 4))) as [names|e|arg]; try done.
    cbn. by rewrite <- app_assoc.
Qed.

(** The code reports the occurrences from offset 4 on, in ascending order. *)
Lemma extract_cab_files_spec (msi_data : list byte) :
  extract_cab_files msi_data = mapM (name_at msi_data) (occurrences msi_data 4).
Proof.
  unfold extract_cab_files. rewrite scan_spec by lia.
  change (0 + 4) with 4. by destruct (mapM _ _).
Qed.

End cab_references.

(** C5 (amended): [extract_cab_files] returns one name per occurrence of
    ".cab" at an offset of at least 4, in ascending order of the offsets, the
    name for offset [i] being [bytes[i-32 : i+4]] decoded as ASCII (or it
    raises at the first such window that does not decode); 32 bytes "X"
    followed by ".cab" give the single 36-character name. *)
Theorem C5_extract_cab_files (msi_data : list byte) :
  MSIParser.extract_cab_files msi_data
  = mapM (Spec.name_at msi_data) (Spec.occurrences msi_data 4)
  ∧ MSIParser.extract_cab_files (bytes_of "XXXXXXXXXXXXXXXXXXXXXXXXXXXXXXXX.cab")
    = Return ["XXXXXXXXXXXXXXXXXXXXXXXXXXXXXXXX.cab"].
Proof.
  split; [apply extract_cab_files_spec|]. vm_compute. reflexivity.
Qed.

(** An occurrence at offset 0 is not reported. *)
Lemma C5_counterexample :
  Spec.occurrences (bytes_of ".cab") 0 = [0]
  ∧ Spec.extractCabReferences (bytes_of ".cab") = Return [".cab"]
  ∧ MSIParser.extract_cab_files (bytes_of ".cab") = Return [].
Proof. repeat split; vm_compute; reflexivity. Qed.

(** ** Hexadecimal digests *)

Lemma lower_app (a b : string) : Py.lower (a +:+ b) = Py.lower a +:+ Py.lower b.
Proof. induction a as [|c a IH]; simpl; [done|]. by rewrite IH. Qed.

Lemma hexchar_lower (n : N) : Py.chr_lower (Hashlib.hexchar n) = Hashlib.hexchar n.
Proof.
  unfold Hashlib.hexchar. generalize (N.to_nat n). intros k.
  do 16 (destruct k as [|k]; [reflexivity|]). reflexivity.
Qed.

Lemma hex32_lower (w : N) : Py.lower (Hashlib.hex32 w) = Hashlib.hex32 w.
Proof. unfold Hashlib.hex32. simpl. by rewrite !hexchar_lower. Qed.

(** [hexdigest()] is in lower case. *)
Lemma sha256_hexdigest_lower (data : list byte) :
  Py.lower (Hashlib.sha256_hexdigest data) = Hashlib.sha256_hexdigest data.
Proof.
  unfold Hashlib.sha256_hexdigest. cbv zeta.
  by rewrite !lower_app, !hex32_lower.
Qed.

(** The test of line 128 is the case-insensitive comparison. *)
Lemma digest_test (data : list byte) (expected_hash : string) :
  String.eqb (Hashlib.sha256_hexdigest data) (Py.lower expected_hash) = true
  ↔ Spec.equal_ignoring_case (Hashlib.sha256_hexdigest data) expected_hash.
Proof.
  unfold Spec.equal_ignoring_case. rewrite sha256_hexdigest_lower. apply String.eqb_eq.
Qed.

(** ** The verified fetch *)

Section fetch.

Import DownloadManager.

Context (net : env) (url expected_hash filename : string).

Lemma cached_Some (w : world) (data : list byte) :
  cached expected_hash filename w = Some data
  ↔ files w !! filename = Some data
    ∧ Spec.equal_ignoring_case (Hashlib.sha256_hexdigest data) expected_hash.
Proof.
  unfold cached. destruct (files w !! filename) as [stored|].
  2:{ split; [done|]. by intros [? _]. }
  destruct (String.eqb _ _) eqn:E.
  - apply digest_test in E. split.
    + by intros [= <-].
    + by intros [[= <-] _].
  - split; [done|]. intros [[= ->] H%digest_test]. congruence.
Qed.

Lemma cached_None (w : world) (data : list byte) :
  files w !! filename = Some data →
  ¬ Spec.equal_ignoring_case (Hashlib.sha256_hexdigest data) expected_hash →
  cached expected_hash filename w = None.
Proof.
  intros Hfile Hne. destruct (cached expected_hash filename w) as [d|] eqn:E; [|done].
  apply cached_Some in E as [E1 E2]. congruence.
Qed.

(** A valid cached file is returned as it is. *)
Lemma download_hit (w : world) (data : list byte) :
  cached expected_hash filename w = Some data →
  download_with_progress net url expected_hash filename w
  = (Return data, log (PrintOk filename) w).
Proof.
  intros H. unfold download_with_progress, mbind, prog_bind, get. by rewrite H.
Qed.

(** What the loop leaves unchanged, whatever the stream does. *)
Lemma read_chunks_frame (total_size : Z) (s : stream) (downloaded : Z)
    (data_buffer : list byte) (w : world) :
  ∃ evs,
    total_bytes (read_chunks filename total_size s downloaded data_buffer w).2
    = total_bytes w
    ∧ trace (read_chunks filename total_size s downloaded data_buffer w).2
      = trace w ++ evs
    ∧ Forall (λ e, Spec.is_net_open e = false) evs.
Proof.
  revert downloaded data_buffer w.
  induction s as [|chunk rest IH|e]; intros downloaded data_buffer w.
  - exists []. by rewrite app_nil_r.
  - destruct chunk as [|b chunk].
    { exists []. by rewrite app_nil_r. }
    cbn [read_chunks]. unfold mbind, prog_bind, modify, emit, lift.
    destruct (total_size =? 0).
    { exists []. by rewrite app_nil_r. }
    match goal with
    | |- context [read_chunks _ _ rest ?d ?buf ?w1] =>
        destruct (IH d buf w1) as (evs & Htot & Htr & Hevs);
        destruct (read_chunks filename total_size rest d buf w1) as [[data|e|arg] w'] eqn:E
    end; simpl in *.
    all: eexists (_ :: evs); split; [exact Htot|]; split;
      [rewrite Htr, <- app_assoc; reflexivity | constructor; [reflexivity|exact Hevs]].
  - exists []. by rewrite app_nil_r.
Qed.

(** What the loop does when the stream completes. *)
Lemma read_chunks_complete (total_size : Z) (s : stream) (downloaded : Z)
    (data_buffer data : list byte) (w : world) :
  Spec.stream_bytes s = Some data →
  total_size ≠ 0 ∨ data = [] →
  files w !! filename = Some data_buffer →
  ∃ evs,
    read_chunks filename total_size s downloaded data_buffer w
    = (Return (data_buffer ++ data),
       World (<[filename := data_buffer ++ data]> (files w)) (output w)
             (total_bytes w) (trace w ++ evs))
    ∧ Forall (λ e, Spec.is_net_open e = false) evs.
Proof.
  revert downloaded data_buffer data w.
  induction s as [|chunk rest IH|e]; intros downloaded data_buffer data w Hs Hsize Hfile.
  - injection Hs as <-. exists []. split; [|done].
    rewrite !app_nil_r, insert_id by done. by destruct w.
  - destruct chunk as [|b chunk].
    { injection Hs as <-. exists []. split; [|done].
      rewrite !app_nil_r, insert_id by done. by destruct w. }
    cbn [Spec.stream_bytes] in Hs.
    destruct (Spec.stream_bytes rest) as [tl|] eqn:Htl; [|done].
    injection Hs as <-.
    destruct Hsize as [Hsize|?]; [|done].
    cbn [read_chunks]. unfold mbind, prog_bind, modify, emit, lift.
    destruct (Z.eqb_spec total_size 0) as [?|_]; [done|].
    match goal with
    | |- context [read_chunks _ _ rest ?d ?buf ?w1] =>
        destruct (IH d buf tl w1 eq_refl (or_introl Hsize)) as (evs & Hrun & Hevs)
    end.
    { simpl. apply lookup_insert_eq. }
    eexists (_ :: evs). split.
    + rewrite Hrun. simpl. rewrite insert_insert_eq, <- !app_assoc. reflexivity.
    + constructor; [reflexivity|exact Hevs].
  - done.
Qed.

(** A missing or invalid cached file: the first thing is a request. *)
Lemma download_miss_requests (w : world) :
  cached expected_hash filename w = None →
  ∃ rest,
    trace (download_with_progress net url expected_hash filename w).2
    = trace w ++ NetOpen url :: rest.
Proof.
  intros H. unfold download_with_progress, mbind, prog_bind, get, modify, emit, lift.
  rewrite H. simpl.
  destruct (urlopen net url) as [resp|]; [|by exists []].
  destruct (content_length resp) as [total_size|]; [|by exists []].
  match goal with
  | |- context [read_chunks _ _ _ ?d ?buf ?w1] =>
      destruct (read_chunks_frame total_size (body resp) d buf w1) as (evs & _ & Htr & _);
      destruct (read_chunks filename total_size (body resp) d buf w1) as [[data|e|arg] w'] eqn:E
  end; simpl in *.
  - destruct (negb _); simpl; rewrite Htr, <- ?app_assoc; eauto.
  - rewrite Htr, <- ?app_assoc; eauto.
  - rewrite Htr, <- ?app_assoc; eauto.
Qed.

(** The counter, whatever the outcome of a fetch that misses the cache. *)
Lemma download_miss_counter (w : world) :
  cached expected_hash filename w = None →
  match (download_with_progress net url expected_hash filename w).1 with
  | Return data =>
      Spec.equal_ignoring_case (Hashlib.sha256_hexdigest data) expected_hash
      ∧ total_bytes (download_with_progress net url expected_hash filename w).2
        = total_bytes w + Z.of_nat (length data)
  | _ => total_bytes (download_with_progress net url expected_hash filename w).2
         = total_bytes w
  end.
Proof.
  intros H. unfold download_with_progress, mbind, prog_bind, get, modify, emit, lift.
  rewrite H. simpl.
  destruct (urlopen net url) as [resp|]; [|done].
  destruct (content_length resp) as [total_size|]; [|done].
  match goal with
  | |- context [read_chunks _ _ _ ?d ?buf ?w1] =>
      destruct (read_chunks_frame total_size (body resp) d buf w1) as (evs & Htot & _ & _);
      destruct (read_chunks filename total_size (body resp) d buf w1) as [[data|e|arg] w'] eqn:E
  end; simpl in *; try done.
  destruct (String.eqb (Py.lower expected_hash) (Hashlib.sha256_hexdigest data)) eqn:Eh;
    simpl; [|done].
  split; [|by rewrite Htot].
  apply digest_test. by rewrite String.eqb_sym.
Qed.

(** After a miss the old content of the file plays no part. *)
Lemma download_miss_eq (w1 w2 : world) :
  cached expected_hash filename w1 = None →
  cached expected_hash filename w2 = None →
  set_files (<[filename := []]> (files w1)) w1
  = set_files (<[filename := []]> (files w2)) w2 →
  download_with_progress net url expected_hash filename w1
  = download_with_progress net url expected_hash filename w2.
Proof.
  intros H1 H2 Heq.
  unfold download_with_progress, mbind, prog_bind, get, modify.
  rewrite H1, H2. cbv beta iota. by rewrite Heq.
Qed.

(** A miss whose download completes with the expected digest: the received
    bytes are returned, replace the content of the file and are counted. *)
Lemma download_miss_success (w : world) (resp : response) (total_size : Z)
    (received : list byte) :
  cached expected_hash filename w = None →
  urlopen net url = Some resp →
  content_length resp = Some total_size →
  Spec.stream_bytes (body resp) = Some received →
  total_size ≠ 0 ∨ received = [] →
  Spec.equal_ignoring_case (Hashlib.sha256_hexdigest received) expected_hash →
  ∃ evs,
    download_with_progress net url expected_hash filename w
    = (Return received,
       World (<[filename := received]> (files w)) (output w)
             (total_bytes w + Z.of_nat (length received))
             (trace w ++ NetOpen url :: evs))
    ∧ Forall (λ e, Spec.is_net_open e = false) evs.
Proof.
  intros Hmiss Hopen Hlen Hdata Hsize Heq.
  set (w1 := log (NetOpen url) (set_files (<[filename := []]> (files w)) w)).
  destruct (read_chunks_complete total_size (body resp) 0 [] received w1 Hdata Hsize)
    as (evs & Hrun & Hevs).
  { unfold w1, log, set_files. cbn [files]. apply lookup_insert_eq. }
  exists (evs ++ [PrintNewline]). split.
  - unfold download_with_progress, mbind, prog_bind, mret, prog_ret, get, modify, emit,
      lift.
    rewrite Hmiss. cbv beta iota. rewrite Hopen, Hlen. cbv beta iota.
    fold w1. rewrite Hrun. cbv beta iota. cbn [app].
    assert (String.eqb (Py.lower expected_hash) (Hashlib.sha256_hexdigest received)
            = true) as ->.
    { rewrite String.eqb_sym. by apply digest_test. }
    cbn [negb]. unfold w1, log, set_files, set_total_bytes.
    cbn [files output total_bytes trace].
    rewrite insert_insert_eq, <- !app_assoc. reflexivity.
  - apply Forall_app. split; [done|]. by constructor.
Qed.

End fetch.

(** C3: when the cache holds a file of that name, a digest equal to the
    expected one under case-insensitive comparison makes the fetch return the
    file's content with no request to the network; a digest that differs
    makes it download again, exactly as if the file were absent: the URL is
    requested, and when the response completes with the expected digest the
    received bytes are returned, replace the content of the file and are
    added to the counter. *)
Theorem C3_fetch_uses_valid_cache (net : env) (url expected_hash filename : string)
    (w : world) (data : list byte) :
  files w !! filename = Some data →
  (Spec.equal_ignoring_case (Hashlib.sha256_hexdigest data) expected_hash →
   DownloadManager.download_with_progress net url expected_hash filename w
   = (Return data, log (PrintOk filename) w))
  ∧ (¬ Spec.equal_ignoring_case (Hashlib.sha256_hexdigest data) expected_hash →
     (∃ rest,
        trace (DownloadManager.download_with_progress net url expected_hash filename w).2
        = trace w ++ NetOpen url :: rest)
     ∧ DownloadManager.download_with_progress net url expected_hash filename w
       = DownloadManager.download_with_progress net url expected_hash filename
           (set_files (delete filename (files w)) w)
     ∧ ∀ resp total_size received,
         urlopen net url = Some resp →
         content_length resp = Some total_size →
         Spec.stream_bytes (body resp) = Some received →
         total_size ≠ 0 ∨ received = [] →
         Spec.equal_ignoring_case (Hashlib.sha256_hexdigest received) expected_hash →
         ∃ evs,
           DownloadManager.download_with_progress net url expected_hash filename w
           = (Return received,
              World (<[filename := received]> (files w)) (output w)
                    (total_bytes w + Z.of_nat (length received))
                    (trace w ++ NetOpen url :: evs))
           ∧ Forall (λ e, Spec.is_net_open e = false) evs).
Proof.
  intros Hfile. split.
  - intros Heq. apply download_hit. by apply cached_Some.
  - intros Hne. pose proof (cached_None _ _ _ _ Hfile Hne) as Hmiss.
    split; [by apply download_miss_requests|]. split.
    + apply download_miss_eq; [done| |].
      * unfold DownloadManager.cached, set_files. cbn [files].
        by rewrite lookup_delete_eq.
      * unfold set_files. cbn [files output total_bytes trace].
        by rewrite insert_delete_eq.
    + intros resp total_size received Hopen Hlen Hdata Hsize Heq.
      by apply (download_miss_success net url expected_hash filename w resp total_size).
Qed.

(** C4: when a download completes and the digest of the received bytes
    differs from the expected one, the fetch exits with "Hash mismatch",
    having made a single request; the file it leaves fails the cache check,
    so that a later fetch requests the URL again. *)
Theorem C4_hash_mismatch_is_fatal (net : env) (url expected_hash filename : string)
    (w : world) (resp : response) (total_size : Z) (data : list byte) :
  DownloadManager.cached expected_hash filename w = None →
  urlopen net url = Some resp →
  content_length resp = Some total_size →
  Spec.stream_bytes (body resp) = Some data →
  total_size ≠ 0 ∨ data = [] →
  ¬ Spec.equal_ignoring_case (Hashlib.sha256_hexdigest data) expected_hash →
  ∃ evs w',
    DownloadManager.download_with_progress net url expected_hash filename w
    = (SysExit (ExitMsg ("Hash mismatch for " +:+ filename)), w')
    ∧ w' = World (<[filename := data]> (files w)) (output w) (total_bytes w)
                 (trace w ++ NetOpen url :: evs)
    ∧ Forall (λ e, Spec.is_net_open e = false) evs
    ∧ DownloadManager.cached expected_hash filename w' = None
    ∧ ∀ net', ∃ rest,
        trace (DownloadManager.download_with_progress net' url expected_hash filename w').2
        = trace w' ++ NetOpen url :: rest.
Proof.
  intros Hmiss Hopen Hlen Hdata Hsize Hne.
  set (w1 := log (NetOpen url) (set_files (<[filename := []]> (files w)) w)).
  destruct (read_chunks_complete filename total_size (body resp) 0 [] data w1
              Hdata Hsize) as (evs & Hrun & Hevs).
  { simpl. apply lookup_insert_eq. }
  set (w' := World (<[filename := data]> (files w)) (output w) (total_bytes w)
                   (trace w ++ NetOpen url :: (evs ++ [PrintNewline]))).
  assert (Hcache : DownloadManager.cached expected_hash filename w' = None).
  { apply (cached_None _ _ _ data); [|done]. simpl. apply lookup_insert_eq. }
  exists (evs ++ [PrintNewline]), w'. split; [|split; [done|split; [|split; [done|]]]].
  - unfold DownloadManager.download_with_progress, mbind, prog_bind, get, modify, emit, lift.
    rewrite Hmiss. cbv beta iota. rewrite Hopen, Hlen. cbv beta iota.
    fold w1. rewrite Hrun. cbv beta iota. cbn [app].
    assert (String.eqb (Py.lower expected_hash) (Hashlib.sha256_hexdigest data) = false) as ->.
    { rewrite String.eqb_sym. apply not_true_is_false. by intros ?%digest_test. }
    cbn [negb]. unfold w', w1, log, set_files. cbn [files output total_bytes trace].
    rewrite insert_insert_eq, <- !app_assoc. reflexivity.
  - apply Forall_app. split; [done|]. by constructor.
  - intros net'. by apply download_miss_requests.
Qed.

(** C9: a cache hit leaves the byte counter and the cache as they are; a
    fetch that misses the cache and returns adds the length of the returned
    bytes; and the counter changes in no other case. *)
Theorem C9_counter_counts_transfers (net : env) (url expected_hash filename : string)
    (w : world) :
  let r := DownloadManager.download_with_progress net url expected_hash filename w in
  (∀ stored, DownloadManager.cached expected_hash filename w = Some stored →
     total_bytes r.2 = total_bytes w ∧ files r.2 = files w)
  ∧ (∀ data, DownloadManager.cached expected_hash filename w = None →
       r.1 = Return data →
       total_bytes r.2 = total_bytes w + Z.of_nat (length data))
  ∧ (total_bytes r.2 ≠ total_bytes w →
     ∃ data rest,
       r.1 = Return data
       ∧ DownloadManager.cached expected_hash filename w = None
       ∧ trace r.2 = trace w ++ NetOpen url :: rest
       ∧ Spec.equal_ignoring_case (Hashlib.sha256_hexdigest data) expected_hash
       ∧ total_bytes r.2 = total_bytes w + Z.of_nat (length data)).
Proof.
  intros r. subst r. split; [|split].
  - intros stored Hhit. by rewrite (download_hit _ _ _ _ _ _ Hhit).
  - intros data Hmiss Hret.
    pose proof (download_miss_counter net url _ _ w Hmiss) as H.
    rewrite Hret in H. apply H.
  - intros Hchg.
    destruct (DownloadManager.cached expected_hash filename w) as [stored|] eqn:Hc.
    { rewrite (download_hit _ _ _ _ _ _ Hc) in Hchg. done. }
    pose proof (download_miss_counter net url _ _ w Hc) as H.
    destruct (download_miss_requests net url _ _ w Hc) as [rest Hrest].
    destruct (DownloadManager.download_with_progress net url expected_hash filename w)
      as [[data|e|arg] w'] eqn:E; simpl in *; try done.
    destruct H as [Heq Htot]. by exists data, rest.
Qed.

Lemma C3_fetch_uses_valid_cache_witness :
  DownloadManager.download_with_progress Sample.offline Sample.abc_url Sample.abc_digest
    "abc.bin" Sample.valid_cache
  = (Return (bytes_of "abc"), log (PrintOk "abc.bin") Sample.valid_cache)
  ∧ ∃ evs,
      DownloadManager.download_with_progress Sample.good_net Sample.abc_url
        Sample.abc_digest "abc.bin" Sample.corrupt_cache
      = (Return (bytes_of "abc"),
         World (<["abc.bin" := bytes_of "abc"]> (files Sample.corrupt_cache))
               (output Sample.corrupt_cache)
               (total_bytes Sample.corrupt_cache + Z.of_nat (length (bytes_of "abc")))
               (trace Sample.corrupt_cache ++ NetOpen Sample.abc_url :: evs))
      ∧ Forall (λ e, Spec.is_net_open e = false) evs.
Proof.
  split.
  - apply (C3_fetch_uses_valid_cache Sample.offline Sample.abc_url Sample.abc_digest
             "abc.bin" Sample.valid_cache (bytes_of "abc")).
    + vm_compute. reflexivity.
    + vm_compute. reflexivity.
  - assert (Hfile : files Sample.corrupt_cache !! "abc.bin" = Some (bytes_of "abd"))
      by (vm_compute; reflexivity).
    assert (Hne : ¬ Spec.equal_ignoring_case
                      (Hashlib.sha256_hexdigest (bytes_of "abd")) Sample.abc_digest)
      by (intros H; vm_compute in H; discriminate H).
    apply (proj2 (proj2 (proj2 (C3_fetch_uses_valid_cache Sample.good_net Sample.abc_url
                                  Sample.abc_digest "abc.bin" Sample.corrupt_cache
                                  (bytes_of "abd") Hfile) Hne))
             Sample.good_response 3 (bytes_of "abc")).
    + reflexivity.
    + reflexivity.
    + vm_compute. reflexivity.
    + left. lia.
    + vm_compute. reflexivity.
Defined.

Lemma C4_hash_mismatch_is_fatal_witness :
  ∃ evs w',
    DownloadManager.download_with_progress Sample.corrupt_net Sample.abc_url
      Sample.abc_digest "abc.bin" Sample.initial_world
    = (SysExit (ExitMsg ("Hash mismatch for " +:+ "abc.bin")), w')
    ∧ w' = World (<["abc.bin" := bytes_of "abd"]> (files Sample.initial_world))
                 (output Sample.initial_world) (total_bytes Sample.initial_world)
                 (trace Sample.initial_world ++ NetOpen Sample.abc_url :: evs)
    ∧ Forall (λ e, Spec.is_net_open e = false) evs
    ∧ DownloadManager.cached Sample.abc_digest "abc.bin" w' = None
    ∧ ∀ net', ∃ rest,
        trace (DownloadManager.download_with_progress net' Sample.abc_url
                 Sample.abc_digest "abc.bin" w').2
        = trace w' ++ NetOpen Sample.abc_url :: rest.
Proof.
  apply (C4_hash_mismatch_is_fatal Sample.corrupt_net Sample.abc_url Sample.abc_digest
           "abc.bin" Sample.initial_world Sample.corrupt_response 3 (bytes_of "abd")).
  - vm_compute. reflexivity.
  - reflexivity.
  - reflexivity.
  - vm_compute. reflexivity.
  - left. lia.
  - intros H. vm_compute in H. discriminate H.
Defined.

Lemma C9_counter_counts_transfers_witness :
  total_bytes (DownloadManager.download_with_progress Sample.good_net Sample.abc_url
                 Sample.abc_digest "abc.bin" Sample.initial_world).2
  = total_bytes Sample.initial_world + Z.of_nat (length (bytes_of "abc"))
  ∧ total_bytes (DownloadManager.download_with_progress Sample.good_net Sample.abc_url
                   Sample.abc_digest "abc.bin" Sample.valid_cache).2
    = total_bytes Sample.valid_cache.
Proof.
  split.
  - apply (C9_counter_counts_transfers Sample.good_net Sample.abc_url Sample.abc_digest
             "abc.bin" Sample.initial_world).
    + vm_compute. reflexivity.
    + vm_compute. reflexivity.
  - apply (proj1 (C9_counter_counts_transfers Sample.good_net Sample.abc_url
                    Sample.abc_digest "abc.bin" Sample.valid_cache) (bytes_of "abc")).
    vm_compute. reflexivity.
Defined.

(** ** The package index and the recorded versions *)

Lemma contains_keys {V} (d : Dict.t V) (k : string) :
  Dict.contains d k = true ↔ k ∈ Dict.keys d.
Proof.
  unfold Dict.contains, Dict.keys. induction d as [|[k0 v] d IH]; simpl.
  - split; [done|]. intros H. by apply elem_of_nil in H.
  - destruct (String.eqb_spec k0 k) as [->|Hne].
    + split; [left|done].
    + rewrite IH, elem_of_cons. split; [auto|]. intros [?|?]; [congruence|done].
Qed.

Lemma get_setdefault_append {V} (d : Dict.t (list V)) (k : string) (x : V) (k' : string) :
  Dict.get (Dict.setdefault_append d k x) k'
  = if String.eqb k k' then Some (default [] (Dict.get d k) ++ [x]) else Dict.get d k'.
Proof.
  induction d as [|[k0 v] d IH]; simpl.
  - by destruct (String.eqb k k').
  - destruct (String.eqb_spec k0 k) as [->|Hne]; simpl.
    + by destruct (String.eqb k k').
    + rewrite IH. destruct (String.eqb_spec k0 k') as [->|Hne'].
      * destruct (String.eqb_spec k k') as [->|_]; [done|done].
      * done.
Qed.

Lemma get_fold_group (vs_packages : list package) (d : Dict.t (list package)) (k : string) :
  default [] (Dict.get
     (foldl (λ packages package,
               Dict.setdefault_append packages (Py.lower (pkg_id package)) package)
            d vs_packages) k)
  = default [] (Dict.get d k) ++ filter (Spec.same_id k) vs_packages.
Proof.
  revert d. induction vs_packages as [|p l IH]; intros d; simpl.
  - by rewrite filter_nil, app_nil_r.
  - rewrite IH, get_setdefault_append. rewrite filter_cons.
    destruct (String.eqb_spec (Py.lower (pkg_id p)) k) as [Heq|Hne].
    + rewrite decide_True by done. rewrite Heq. simpl. by rewrite <- app_assoc.
    + by rewrite decide_False by done.
Qed.

Lemma get_keys {V} (d : Dict.t V) (k : string) :
  is_Some (Dict.get d k) ↔ k ∈ Dict.keys d.
Proof.
  rewrite <- contains_keys. unfold Dict.contains.
  destruct (Dict.get d k) as [v|].
  - split; [done|]. intros _. by exists v.
  - split; [by intros [? ?]|done].
Qed.

(** The index groups the packages by lower-cased identifier, each group in
    the order of the manifest. *)
Theorem group_packages_lookup (vs_packages : list package) (k : string) :
  Dict.get (VSInstaller.group_packages vs_packages) k
  = match filter (Spec.same_id k) vs_packages with
    | [] => None
    | group => Some group
    end.
Proof.
  pose proof (get_fold_group vs_packages [] k) as Hget.
  fold (VSInstaller.group_packages vs_packages) in Hget. simpl in Hget.
  destruct (Dict.get (VSInstaller.group_packages vs_packages) k) as [l|] eqn:E.
  - simpl in Hget. subst l.
    assert (Hk : k ∈ Dict.keys (VSInstaller.group_packages vs_packages)).
    { apply get_keys. by rewrite E. }
    apply group_packages_keys in Hk as (p & Hp & Hid).
    destruct (filter (Spec.same_id k) vs_packages) as [|q l] eqn:Hf; [|done].
    assert (p ∈ filter (Spec.same_id k) vs_packages) as Hin
      by (by apply list_elem_of_filter).
    rewrite Hf in Hin. by apply elem_of_nil in Hin.
  - simpl in Hget. by rewrite <- Hget.
Qed.

Lemma lookup_insert_cases (m : gmap string string) (k v key pid : string) :
  <[k := v]> m !! key = Some pid → (key = k ∧ pid = v) ∨ m !! key = Some pid.
Proof.
  destruct (decide (k = key)) as [->|Hne].
  - rewrite lookup_insert_eq. intros [= ->]. by left.
  - rewrite lookup_insert_ne by done. by right.
Qed.

(** The values recorded by one turn of the discovery loop. *)
Lemma classify_values (msvc_versions sdk_versions msvc' sdk' : gmap string string)
    (package_id : string) :
  VSInstaller.classify (msvc_versions, sdk_versions) package_id = Return (msvc', sdk') →
  (∀ key pid, msvc' !! key = Some pid →
     msvc_versions !! key = Some pid
     ∨ (pid = package_id ∧ Spec.gives_msvc_key package_id key))
  ∧ (∀ key pid, sdk' !! key = Some pid →
       sdk_versions !! key = Some pid
       ∨ (pid = package_id ∧ Spec.gives_sdk_key package_id key)).
Proof.
  unfold VSInstaller.classify, Spec.gives_msvc_key, Spec.gives_sdk_key.
  destruct (Py.startswith package_id "microsoft.vc.") eqn:Hpre; simpl andb.
  - destruct (Py.endswith package_id ".tools.hostx64.targetx64.base") eqn:Hend.
    + destruct (msvc_version_nonempty _ Hpre Hend) as (c & rest & Hv). rewrite Hv.
      cbn [Py.first_char mbind outcome_bind].
      destruct (Py.chr_isnumeric c) eqn:Hnum; intros [= <- <-]; (split; [|by left]).
      * intros key pid [[-> ->]|?]%lookup_insert_cases; [right|by left].
        repeat split; eauto.
      * by left.
    + pose proof (msvc_sdk_exclusive _ Hpre) as ->. intros [= <- <-]. by split; left.
  - destruct (Py.startswith package_id "microsoft.visualstudio.component.windows10sdk."
              || Py.startswith package_id "microsoft.visualstudio.component.windows11sdk.")
      eqn:Hsdk.
    + unfold Py.last_item.
      destruct (last (Py.split "." package_id)) as [version|] eqn:Hlast; [|done].
      cbn [mbind outcome_bind]. apply orb_true_iff in Hsdk.
      destruct (Py.isnumeric version) eqn:Hnum; intros [= <- <-]; (split; [by left|]).
      * intros key pid [[-> ->]|?]%lookup_insert_cases; [right|by left]. done.
      * by left.
    + intros [= <- <-]. by split; left.
Qed.

Lemma classify_all_values (package_ids : list string)
    (msvc_versions sdk_versions msvc' sdk' : gmap string string) :
  VSInstaller.classify_all (msvc_versions, sdk_versions) package_ids
  = Return (msvc', sdk') →
  (∀ key pid, msvc' !! key = Some pid →
     msvc_versions !! key = Some pid
     ∨ (pid ∈ package_ids ∧ Spec.gives_msvc_key pid key))
  ∧ (∀ key pid, sdk' !! key = Some pid →
       sdk_versions !! key = Some pid
       ∨ (pid ∈ package_ids ∧ Spec.gives_sdk_key pid key)).
Proof.
  revert msvc_versions sdk_versions.
  induction package_ids as [|package_id rest IH]; intros msvc_versions sdk_versions.
  - intros [= <- <-]. by split; left.
  - cbn [VSInstaller.classify_all].
    destruct (VSInstaller.classify (msvc_versions, sdk_versions) package_id)
      as [[m1 s1]|e|arg] eqn:Hstep; [|done..].
    cbn [mbind outcome_bind]. intros Hrest.
    destruct (classify_values _ _ _ _ _ Hstep) as [Hm1 Hs1].
    destruct (IH _ _ Hrest) as [Hm2 Hs2]. split; intros key pid Hlook.
    + destruct (Hm2 _ _ Hlook) as [H1|[Hin Hg]].
      * destruct (Hm1 _ _ H1) as [?|[-> Hg]]; [by left|]. right. split; [left|done].
      * right. split; [by right|done].
    + destruct (Hs2 _ _ Hlook) as [H1|[Hin Hg]].
      * destruct (Hs1 _ _ H1) as [?|[-> Hg]]; [by left|]. right. split; [left|done].
      * right. split; [by right|done].
Qed.

(** Every recorded version names an identifier of the index that gives it. *)
Theorem recorded_versions_in_index (vs_packages : list package)
    (packages : Dict.t (list package)) (msvc_versions sdk_versions : gmap string string)
    (key package_id : string) :
  VSInstaller.parse_available_versions vs_packages
  = Return (packages, msvc_versions, sdk_versions) →
  (msvc_versions !! key = Some package_id →
   Dict.contains packages package_id = true ∧ Spec.gives_msvc_key package_id key)
  ∧ (sdk_versions !! key = Some package_id →
     Dict.contains packages package_id = true ∧ Spec.gives_sdk_key package_id key).
Proof.
  unfold VSInstaller.parse_available_versions.
  destruct (VSInstaller.classify_all (∅, ∅)
              (Dict.keys (VSInstaller.group_packages vs_packages)))
    as [[m s]|e|arg] eqn:Hrun; [|done..].
  cbn [mbind outcome_bind]. intros [= <- <- <-].
  destruct (classify_all_values _ _ _ _ _ Hrun) as [Hm Hs]. split; intros Hlook.
  - destruct (Hm _ _ Hlook) as [H|[Hin Hg]]; [by rewrite lookup_empty in H|].
    split; [by apply contains_keys|done].
  - destruct (Hs _ _ Hlook) as [H|[Hin Hg]]; [by rewrite lookup_empty in H|].
    split; [by apply contains_keys|done].
Qed.

(** The SDK versions that discovery records. *)
Theorem sdk_version_keys (vs_packages : list package) :
  ∃ packages msvc_versions sdk_versions,
    VSInstaller.parse_available_versions vs_packages
    = Return (packages, msvc_versions, sdk_versions)
    ∧ ∀ key, key ∈ dom sdk_versions ↔
        ∃ p, p ∈ vs_packages ∧ Spec.gives_sdk_key (Py.lower (pkg_id p)) key.
Proof.
  unfold VSInstaller.parse_available_versions.
  destruct (classify_all_spec (Dict.keys (VSInstaller.group_packages vs_packages)) ∅ ∅)
    as (m & s & Hrun & _ & Hs).
  exists (VSInstaller.group_packages vs_packages), m, s. rewrite Hrun.
  split; [done|]. intros key. rewrite Hs, dom_empty_L. split.
  - intros [H|(package_id & Hin & Hkey)]; [by apply elem_of_empty in H|].
    apply group_packages_keys in Hin as (p & Hp & <-). by exists p.
  - intros (p & Hp & Hkey). right. exists (Py.lower (pkg_id p)). split; [|done].
    apply group_packages_keys. by exists p.
Qed.

(** ** Selection after discovery *)

(** What a selection that returns has returned. *)
Lemma select_versions_returns (self : VSInstaller.installer)
    (msvc_versions sdk_versions : gmap string string) (w w' : world)
    (full_msvc_version sdk_ver msvc_package_id sdk_package_id : string) :
  VSInstaller.select_versions self msvc_versions sdk_versions w
  = (Return (full_msvc_version, sdk_ver, msvc_package_id, sdk_package_id), w') →
  w' = w
  ∧ (∃ msvc_ver, msvc_versions !! msvc_ver = Some msvc_package_id)
  ∧ sdk_versions !! sdk_ver = Some sdk_package_id
  ∧ full_msvc_version = Py.join "." (Py.slice (Py.split "." msvc_package_id) 2 6).
Proof.
  unfold VSInstaller.select_versions, mbind, prog_bind, mret, prog_ret, lift, emit.
  destruct (show_versions (VSInstaller.self_args self)); [done|].
  destruct (Py.or_else (msvc_version _) _) as [msvc_ver|e|arg]; [|done..].
  destruct (msvc_versions !! msvc_ver) as [mp|] eqn:Hm; [|done].
  destruct (Py.or_else (sdk_version _) _) as [sv|e|arg]; [|done..].
  destruct (sdk_versions !! sv) as [sp|] eqn:Hs; [|done].
  intros [= <- <- <- <- <-]. eauto.
Qed.

(** The identifiers selected from a manifest are keys of its index. *)
Theorem selected_packages_in_index (self : VSInstaller.installer)
    (vs_packages : list package) (packages : Dict.t (list package))
    (msvc_versions sdk_versions : gmap string string) (w w' : world)
    (full_msvc_version sdk_ver msvc_package_id sdk_package_id : string) :
  VSInstaller.parse_available_versions vs_packages
  = Return (packages, msvc_versions, sdk_versions) →
  VSInstaller.select_versions self msvc_versions sdk_versions w
  = (Return (full_msvc_version, sdk_ver, msvc_package_id, sdk_package_id), w') →
  Dict.contains packages msvc_package_id = true
  ∧ Dict.contains packages sdk_package_id = true
  ∧ Spec.gives_sdk_key sdk_package_id sdk_ver.
Proof.
  intros Hparse Hsel.
  destruct (select_versions_returns _ _ _ _ _ _ _ _ _ Hsel) as (_ & [mv Hm] & Hs & _).
  unfold VSInstaller.parse_available_versions in Hparse.
  destruct (VSInstaller.classify_all (∅, ∅)
              (Dict.keys (VSInstaller.group_packages vs_packages)))
    as [[m s]|e|arg] eqn:Hrun; [|done..].
  cbn [mbind outcome_bind] in Hparse. injection Hparse as <- <- <-.
  destruct (classify_all_values _ _ _ _ _ Hrun) as [Hmsvc Hsdk].
  destruct (Hmsvc _ _ Hm) as [H|[Hin1 _]]; [by rewrite lookup_empty in H|].
  destruct (Hsdk _ _ Hs) as [H|[Hin2 Hgives]]; [by rewrite lookup_empty in H|].
  split; [by apply contains_keys|]. split; [by apply contains_keys|done].
Qed.

(** A requested toolchain version is honoured when it was discovered,
    whether or not it is the greatest, and ends the run with a message when
    it was not; the SDK is then the greatest candidate. *)
Theorem select_versions_requested (self : VSInstaller.installer)
    (msvc_versions sdk_versions : gmap string string) (w : world) (c : ascii) (v : string) :
  show_versions (VSInstaller.self_args self) = false →
  msvc_version (VSInstaller.self_args self) = Some (String c v) →
  sdk_version (VSInstaller.self_args self) = None →
  sdk_versions ≠ ∅ →
  match msvc_versions !! String c v with
  | None =>
      VSInstaller.select_versions self msvc_versions sdk_versions w
      = (SysExit (ExitMsg ("Unknown MSVC version: " +:+ String c v)), w)
  | Some msvc_package_id =>
      ∃ sdk_ver sdk_package_id,
        VSInstaller.select_versions self msvc_versions sdk_versions w
        = (Return (Py.join "." (Py.slice (Py.split "." msvc_package_id) 2 6),
                   sdk_ver, msvc_package_id, sdk_package_id), w)
        ∧ sdk_versions !! sdk_ver = Some sdk_package_id
        ∧ ∀ k, k ∈ dom sdk_versions → String.le k sdk_ver
  end.
Proof.
  intros Hshow Hreq Hsdk Hne.
  unfold VSInstaller.select_versions, mbind, prog_bind, mret, prog_ret, lift, emit.
  rewrite Hshow, Hreq, Hsdk. cbn [Py.or_else].
  destruct (msvc_versions !! String c v) as [mp|]; [|done].
  destruct (default_version sdk_versions Hne) as (sv & sp & Hsv & Hsp & Hmax).
  cbn [Py.or_else] in Hsv. exists sv, sp. rewrite Hsv, Hsp. done.
Qed.

(** With nothing requested and no toolchain version discovered the run
    stops in [max] of an empty sequence. *)
Theorem select_versions_no_candidate (self : VSInstaller.installer)
    (sdk_versions : gmap string string) (w : world) :
  show_versions (VSInstaller.self_args self) = false →
  msvc_version (VSInstaller.self_args self) = None →
  VSInstaller.select_versions self ∅ sdk_versions w = (Raise ValueError, w).
Proof.
  intros Hshow Hreq.
  unfold VSInstaller.select_versions, mbind, prog_bind, mret, prog_ret, lift, emit.
  rewrite Hshow, Hreq. unfold VSInstaller.version_keys. by rewrite map_to_list_empty.
Qed.

(** ** The layout of the expansion *)

Lemma expand_targets_layout (host : string) (packages : Dict.t (list package))
    (msvc_version : string) (targets : list string) (msvc_packages names : list string) :
  VSInstaller.expand_targets host packages msvc_version targets msvc_packages
  = Return names →
  ∃ redists,
    Forall2 (λ target id,
               VSInstaller.redist_package packages msvc_version target = Return id)
            targets redists
    ∧ names = msvc_packages
              ++ concat (zip_with (λ target id,
                           VSInstaller.target_packages host msvc_version target
                           ++ VSInstaller.asan_packages msvc_version target ++ [id])
                         targets redists).
Proof.
  revert msvc_packages. induction targets as [|t rest IH]; intros acc Hrun.
  - injection Hrun as <-. exists []. split; [constructor|]. by rewrite app_nil_r.
  - cbn [VSInstaller.expand_targets] in Hrun.
    destruct (VSInstaller.redist_package packages msvc_version t) as [id|e|arg] eqn:Hid;
      [|done..].
    cbn [mbind outcome_bind] in Hrun.
    destruct (IH _ Hrun) as (redists & Hall & ->).
    exists (id :: redists). split; [by constructor|].
    cbn [zip_with concat]. by rewrite <- !app_assoc.
Qed.

(** The expansion is the five base packages followed, for each target in
    turn, by its six packages, its sanitizer package if it has one, and its
    redistributable. *)
Theorem expand_packages_layout (self : VSInstaller.installer)
    (packages : Dict.t (list package)) (msvc_version : string) (names : list string) :
  VSInstaller.expand_packages self packages msvc_version = Return names →
  ∃ redists,
    Forall2 (λ target id,
               VSInstaller.redist_package packages msvc_version target = Return id)
            (VSInstaller.self_targets self) redists
    ∧ names = VSInstaller.base_packages msvc_version
              ++ concat (zip_with (λ target id,
                           VSInstaller.target_packages (VSInstaller.self_host self)
                             msvc_version target
                           ++ VSInstaller.asan_packages msvc_version target ++ [id])
                         (VSInstaller.self_targets self) redists)
    ∧ length names
      = (5 + 7 * length (VSInstaller.self_targets self)
         + length (filter (λ target, VSInstaller.str_in target ["x86"; "x64"] = true)
                          (VSInstaller.self_targets self)))%nat.
Proof.
  intros Hrun. apply expand_targets_layout in Hrun as (redists & Hall & ->).
  exists redists. split; [done|]. split; [done|].
  rewrite length_app. change (length (VSInstaller.base_packages msvc_version)) with 5%nat.
  rewrite <- Nat.add_assoc. f_equal.
  induction Hall as [|t id ts ids Hid Hall IH]; [done|].
  cbn [zip_with concat]. rewrite !length_app, IH.
  change (length (VSInstaller.target_packages (VSInstaller.self_host self)
                    msvc_version t)) with 6%nat.
  rewrite (filter_cons _ t). unfold VSInstaller.asan_packages.
  destruct (VSInstaller.str_in t ["x86"; "x64"]) eqn:E.
  - rewrite decide_True by done. cbn [length]. lia.
  - rewrite decide_False by done. cbn [length]. lia.
Qed.

Lemma str_in_elem_of (x : string) (l : list string) :
  VSInstaller.str_in x l = true ↔ x ∈ l.
Proof.
  unfold VSInstaller.str_in. induction l as [|y l IH]; simpl.
  - split; [done|]. intros H. by apply elem_of_nil in H.
  - rewrite orb_true_iff, IH, elem_of_cons, String.eqb_eq. done.
Qed.

Ltac names_differ H :=
  repeat (apply (inj (String.append _)) in H);
  rewrite ?append_cons, ?append_nil_l in H; simplify_eq.

Lemma all_targets_cases (t : string) :
  t ∈ ALL_TARGETS → t = "x64" ∨ t = "x86" ∨ t = "arm" ∨ t = "arm64".
Proof.
  unfold ALL_TARGETS. rewrite !elem_of_cons, elem_of_nil. tauto.
Qed.

(** The sanitizer package of [target] among the names of the expansion of
    another target [t]. *)
Lemma asan_name_in_target (host msvc_version target t : string) :
  target ∈ ALL_TARGETS →
  t ∈ ALL_TARGETS →
  "microsoft.vc." +:+ msvc_version +:+ ".asan." +:+ target +:+ ".base"
  ∈ VSInstaller.target_packages host msvc_version t
    ++ VSInstaller.asan_packages msvc_version t
    ++ [VSInstaller.redist_conventional msvc_version t]
  ↔ t = target ∧ (target = "x86" ∨ target = "x64").
Proof.
  intros [-> | [-> | [-> | ->]]]%all_targets_cases
         [-> | [-> | [-> | ->]]]%all_targets_cases.
  all: unfold VSInstaller.target_packages, VSInstaller.asan_packages,
         VSInstaller.redist_conventional, VSInstaller.redist_suffix;
       cbn [VSInstaller.str_in existsb String.eqb Ascii.eqb Bool.eqb orb app];
       rewrite ?elem_of_cons, elem_of_nil.
  all: split;
       [ intros H; repeat (destruct H as [H|H]); try done; names_differ H; auto
       | intros [? [?|?]]; simplify_eq; auto 10 ].
Qed.

(** With every redistributable under its conventional name, the sanitizer
    package of a target is among the expanded names exactly when the target
    is requested and is "x86" or "x64". *)
Theorem sanitizer_only_for_x86_x64 (self : VSInstaller.installer)
    (packages : Dict.t (list package)) (msvc_version target : string)
    (names : list string) :
  VSInstaller.expand_packages self packages msvc_version = Return names →
  (∀ t, t ∈ VSInstaller.self_targets self → t ∈ ALL_TARGETS) →
  (∀ t, t ∈ VSInstaller.self_targets self →
     Dict.contains packages (VSInstaller.redist_conventional msvc_version t) = true) →
  target ∈ ALL_TARGETS →
  "microsoft.vc." +:+ msvc_version +:+ ".asan." +:+ target +:+ ".base" ∈ names
  ↔ target ∈ VSInstaller.self_targets self ∧ (target = "x86" ∨ target = "x64").
Proof.
  intros Hrun Hvalid Hconv Htarget.
  apply expand_targets_layout in Hrun as (redists & Hall & ->).
  rewrite elem_of_app.
  assert (Hbase : ¬ "microsoft.vc." +:+ msvc_version +:+ ".asan." +:+ target +:+ ".base"
                    ∈ VSInstaller.base_packages msvc_version).
  { apply all_targets_cases in Htarget as [-> | [-> | [-> | ->]]];
      unfold VSInstaller.base_packages; rewrite !elem_of_cons, elem_of_nil;
      intros H; repeat (destruct H as [H|H]); try done; names_differ H. }
  split.
  - intros [?|Hin]; [done|]. clear Hbase.
    induction Hall as [|t id ts ids Hid Hall IH]; [by apply elem_of_nil in Hin|].
    cbn [zip_with concat] in Hin. apply elem_of_app in Hin as [Hin|Hin].
    + rewrite (redist_package_conventional _ _ _ (Hconv t ltac:(left))) in Hid.
      injection Hid as <-.
      apply asan_name_in_target in Hin as [-> ?]; [|done|apply Hvalid; left].
      split; [left|done].
    + destruct IH as [? ?]; [intros; apply Hvalid; by right
                            |intros; apply Hconv; by right|done|].
      split; [by right|done].
  - intros [Hin Hx]. right. clear Hbase.
    induction Hall as [|t id ts ids Hid Hall IH]; [by apply elem_of_nil in Hin|].
    cbn [zip_with concat]. apply elem_of_app.
    apply elem_of_cons in Hin as [<-|Hin].
    + left. rewrite (redist_package_conventional _ _ _ (Hconv target ltac:(left))) in Hid.
      injection Hid as <-. by apply asan_name_in_target.
    + right. apply IH; [intros; apply Hvalid; by right
                       |intros; apply Hconv; by right|done].
Qed.

(** ** Identifiers with four version fields *)

Lemma split_field (a r : string) :
  Spec.dot_free a → Py.split "." (a +:+ String "." r) = a :: Py.split "." r.
Proof.
  unfold Spec.dot_free. revert r. induction a as [|c a IH]; intros r Ha.
  - rewrite append_nil_l. reflexivity.
  - rewrite append_cons. cbn [Py.split] in *.
    destruct (Ascii.eqb c ".") eqn:Hc.
    + pose proof (split_nonempty "." a). destruct (Py.split "." a); simplify_eq.
    + pose proof (split_nonempty "." a) as Hne.
      destruct (Py.split "." a) as [|w ws] eqn:Hsplit; [done|].
      injection Ha as -> ->. by rewrite IH.
Qed.

Lemma dot_append (x : string) : "." +:+ x = String "." x.
Proof. reflexivity. Qed.

Lemma tool_namespace (x : string) :
  "microsoft.vc." +:+ x = "microsoft" +:+ String "." ("vc" +:+ String "." x).
Proof. reflexivity. Qed.

Lemma split_fields_4 (a b c d r : string) :
  Spec.dot_free a → Spec.dot_free b → Spec.dot_free c → Spec.dot_free d →
  Py.split "." ("microsoft.vc." +:+ a +:+ "." +:+ b +:+ "." +:+ c +:+ "." +:+ d
                +:+ String "." r)
  = "microsoft" :: "vc" :: a :: b :: c :: d :: Py.split "." r.
Proof.
  intros Ha Hb Hc Hd.
  rewrite tool_namespace, !dot_append.
  rewrite (split_field "microsoft") by reflexivity.
  rewrite (split_field "vc") by reflexivity.
  rewrite (split_field a), (split_field b), (split_field c), (split_field d) by done.
  reflexivity.
Qed.

(** For an identifier with four version fields the key is the first two,
    the full version is all four, and the first package that the expansion
    names for host and target "x64" is the identifier itself. *)
Theorem four_field_identifier (a b c d : string) :
  Spec.dot_free a → Spec.dot_free b → Spec.dot_free c → Spec.dot_free d →
  let package_id := "microsoft.vc." +:+ a +:+ "." +:+ b +:+ "." +:+ c +:+ "." +:+ d
                    +:+ ".tools.hostx64.targetx64.base" in
  let full_msvc_version := a +:+ "." +:+ b +:+ "." +:+ c +:+ "." +:+ d in
  Py.join "." (Py.slice (Py.split "." package_id) 2 4) = a +:+ "." +:+ b
  ∧ Py.join "." (Py.slice (Py.split "." package_id) 2 6) = full_msvc_version
  ∧ head (VSInstaller.target_packages "x64" full_msvc_version "x64") = Some package_id.
Proof.
  intros Ha Hb Hc Hd package_id full_msvc_version. subst package_id full_msvc_version.
  split; [|split].
  - change (".tools.hostx64.targetx64.base")
      with (String "." "tools.hostx64.targetx64.base").
    rewrite split_fields_4 by done. rewrite slice_nonneg by lia. reflexivity.
  - change (".tools.hostx64.targetx64.base")
      with (String "." "tools.hostx64.targetx64.base").
    rewrite split_fields_4 by done. rewrite slice_nonneg by lia. reflexivity.
  - idtac.
    unfold VSInstaller.target_packages. cbn [head]. f_equal.
    rewrite !append_assoc. reflexivity.
Qed.

(** For an identifier with two version fields the "full version" runs into
    the fields that follow them. *)
Theorem two_field_identifier (a b : string) :
  Spec.dot_free a → Spec.dot_free b →
  let package_id := "microsoft.vc." +:+ a +:+ "." +:+ b
                    +:+ ".tools.hostx64.targetx64.base" in
  Py.join "." (Py.slice (Py.split "." package_id) 2 4) = a +:+ "." +:+ b
  ∧ Py.join "." (Py.slice (Py.split "." package_id) 2 6)
    = a +:+ "." +:+ b +:+ ".tools.hostx64".
Proof.
  intros Ha Hb package_id. subst package_id.
  change (".tools.hostx64.targetx64.base") with (String "." "tools.hostx64.targetx64.base").
  rewrite tool_namespace, !dot_append.
  rewrite (split_field "microsoft") by reflexivity.
  rewrite (split_field "vc") by reflexivity.
  rewrite (split_field a), (split_field b) by done.
  rewrite !slice_nonneg by lia. split; reflexivity.
Qed.

(** ** The recovered names *)

(** From offset 32 on, the window of an occurrence is the 32 bytes before
    the marker followed by the marker. *)
Theorem name_window_full (data : list byte) (i : Z) :
  32 ≤ i →
  Spec.occurs_at data i = true →
  Py.slice data (i - 32) (i + 4)
  = take 32 (drop (Z.to_nat (i - 32)) data) ++ MSIParser.marker
  ∧ length (Py.slice data (i - 32) (i + 4)) = 36%nat.
Proof.
  intros Hi Hocc.
  pose proof (occurs_at_bound data i ltac:(lia) Hocc) as Hbound.
  rewrite occurs_at_starts_with in Hocc by lia.
  apply starts_with_take in Hocc. change (length MSIParser.marker) with 4%nat in Hocc.
  rewrite slice_nonneg by lia.
  replace (Z.to_nat (i + 4) - Z.to_nat (i - 32))%nat with (32 + 4)%nat by lia.
  rewrite <- take_take_drop, drop_drop.
  replace (Z.to_nat (i - 32) + 32)%nat with (Z.to_nat i) by lia.
  rewrite Hocc. split; [done|].
  rewrite length_app, length_take, length_drop.
  change (length MSIParser.marker) with 4%nat. lia.
Qed.

(** Before offset 32, in a buffer of at least 36 bytes, the window of an
    occurrence is empty: the negative start counts from the end. *)
Theorem name_window_short (data : list byte) (i : Z) :
  0 ≤ i < 32 →
  (36 ≤ length data)%nat →
  Py.slice data (i - 32) (i + 4) = []
  ∧ Spec.name_at data i = Return "".
Proof.
  intros Hi Hlen.
  assert (Hslice : Py.slice data (i - 32) (i + 4) = []).
  { unfold Py.slice, Py.clip.
    destruct (Z.ltb_spec (i - 32) 0); [|lia]. destruct (Z.ltb_spec (i + 4) 0); [lia|].
    rewrite Z.max_r, Z.min_l by lia.
    replace (Z.to_nat (i + 4 - (i - 32 + Z.of_nat (length data)))) with 0%nat by lia.
    apply take_0. }
  split; [done|]. unfold Spec.name_at. by rewrite Hslice.
Qed.

Lemma mapM_returns {A B} (f : A → outcome B) (l : list A) :
  (∀ x, x ∈ l → ∃ y, f x = Return y) →
  ∃ ys, mapM f l = Return ys ∧ length ys = length l.
Proof.
  induction l as [|x l IH]; intros Hl.
  - by exists [].
  - destruct (Hl x ltac:(left)) as [y Hy].
    destruct IH as (ys & Hys & Hlen); [intros; apply Hl; by right|].
    exists (y :: ys). cbn [mapM]. rewrite Hy. cbn [mbind outcome_bind].
    fold (mapM f l). rewrite Hys. cbn. by rewrite Hlen.
Qed.

Lemma mapM_outcome_cases {A B} (f : A → outcome B) (l : list A) (e0 : exn) :
  (∀ x, f x = Raise e0 ∨ ∃ y, f x = Return y) →
  match mapM f l with
  | Return ys => length ys = length l
  | Raise e => e = e0
  | SysExit _ => False
  end.
Proof.
  intros Hf. induction l as [|x l IH]; [done|].
  cbn [mapM]. fold (mapM f l).
  destruct (Hf x) as [->|[y ->]]; [done|]. cbn [mbind outcome_bind].
  destruct (mapM f l) as [ys|e|arg]; cbn; [by rewrite IH|done|done].
Qed.

Lemma decode_ascii_cases (b : list byte) :
  MSIParser.decode_ascii b = Raise UnicodeDecodeError
  ∨ ∃ s, MSIParser.decode_ascii b = Return s.
Proof. unfold MSIParser.decode_ascii. destruct (forallb _ b); eauto. Qed.

(** The scan ends in a list with one name per occurrence from offset 4 on,
    or in [UnicodeDecodeError], and in nothing else. *)
Theorem extract_cab_files_outcome (msi_data : list byte) :
  match MSIParser.extract_cab_files msi_data with
  | Return cab_files => length cab_files = length (Spec.occurrences msi_data 4)
  | Raise e => e = UnicodeDecodeError
  | SysExit _ => False
  end.
Proof.
  rewrite extract_cab_files_spec. apply mapM_outcome_cases.
  intros i. apply decode_ascii_cases.
Qed.

Lemma slice_subseteq {A} (l : list A) (a b : Z) : Py.slice l a b ⊆ l.
Proof.
  unfold Py.slice. etrans; [apply subseteq_take|apply subseteq_drop].
Qed.

(** A buffer of ASCII bytes always yields its list of names. *)
Theorem extract_cab_files_ascii (msi_data : list byte) :
  Forall (λ x, (Byte.to_N x < 128)%N) msi_data →
  ∃ cab_files,
    MSIParser.extract_cab_files msi_data = Return cab_files
    ∧ length cab_files = length (Spec.occurrences msi_data 4).
Proof.
  intros Hascii. rewrite extract_cab_files_spec. apply mapM_returns.
  intros i _. unfold Spec.name_at, MSIParser.decode_ascii.
  assert (forallb (λ x, (Byte.to_N x <? 128)%N)
            (Py.slice msi_data (i - 32) (i + 4)) = true) as ->; [|by eauto].
  apply forallb_forall. intros x Hx%list_elem_of_In.
  apply N.ltb_lt. rewrite Forall_forall in Hascii. apply Hascii.
  by apply (slice_subseteq msi_data (i - 32) (i + 4)).
Qed.

Lemma extract_cab_files_ascii_witness :
  ∃ cab_files,
    MSIParser.extract_cab_files Sample.libs_msi = Return cab_files
    ∧ length cab_files = length (Spec.occurrences Sample.libs_msi 4).
Proof.
  apply (extract_cab_files_ascii Sample.libs_msi).
  apply (bool_decide_eq_true_1 _). vm_compute. reflexivity.
Defined.

(** ** What a fetch leaves behind *)

(** The loop, when it returns: the bytes of the stream, appended to the
    buffer and stored under the file name; nothing else is touched. *)
Lemma read_chunks_returns (filename : string) (total_size : Z) (s : stream)
    (downloaded : Z) (data_buffer data : list byte) (w w' : world) :
  files w !! filename = Some data_buffer →
  DownloadManager.read_chunks filename total_size s downloaded data_buffer w
  = (Return data, w') →
  (∃ received, Spec.stream_bytes s = Some received ∧ data = data_buffer ++ received)
  ∧ files w' !! filename = Some data.
Proof.
  revert downloaded data_buffer w.
  induction s as [|chunk rest IH|e]; intros downloaded data_buffer w Hfile Hrun.
  - injection Hrun as <- <-. split; [|done]. exists []. by rewrite app_nil_r.
  - destruct chunk as [|b chunk].
    { injection Hrun as <- <-. split; [|done]. exists []. by rewrite app_nil_r. }
    cbn [DownloadManager.read_chunks] in Hrun.
    unfold mbind, prog_bind, modify, emit, lift in Hrun.
    destruct (total_size =? 0); [done|].
    apply IH in Hrun as [(received & Hrec & ->) Hfile'].
    2:{ unfold log, set_files. cbn [files]. apply lookup_insert_eq. }
    split; [|done]. exists ((b :: chunk) ++ received).
    cbn [Spec.stream_bytes]. rewrite Hrec. split; [done|]. by rewrite <- app_assoc.
  - done.
Qed.

(** What a fetch that misses the cache and returns has stored. *)
Lemma download_miss_stored (net : env) (url expected_hash filename : string)
    (w w' : world) (data : list byte) :
  DownloadManager.cached expected_hash filename w = None →
  DownloadManager.download_with_progress net url expected_hash filename w
  = (Return data, w') →
  DownloadManager.cached expected_hash filename w' = Some data.
Proof.
  intros Hmiss.
  unfold DownloadManager.download_with_progress, mbind, prog_bind, get, modify, emit, lift.
  rewrite Hmiss. cbv beta iota.
  destruct (urlopen net url) as [resp|]; [|done].
  destruct (content_length resp) as [total_size|]; [|done].
  match goal with
  | |- context [DownloadManager.read_chunks _ _ _ ?d ?buf ?w1] =>
      destruct (DownloadManager.read_chunks filename total_size (body resp) d buf w1)
        as [[received|e|arg] w1'] eqn:Hread; [|done..]
  end.
  apply read_chunks_returns in Hread as [_ Hfile].
  2:{ unfold log, set_files. cbn [files]. apply lookup_insert_eq. }
  cbv beta iota.
  destruct (String.eqb (Py.lower expected_hash) (Hashlib.sha256_hexdigest received))
    eqn:Hhash; cbn [negb]; [|done].
  intros [= <- <-]. apply cached_Some. split; [exact Hfile|].
  apply digest_test. by rewrite String.eqb_sym.
Qed.

(** A fetch that misses the cache and returns: the response delivered the
    returned bytes, their digest is the expected one, and they are what the
    cache now holds. *)
Theorem fetch_miss_result (net : env) (url expected_hash filename : string)
    (w w' : world) (data : list byte) :
  DownloadManager.cached expected_hash filename w = None →
  DownloadManager.download_with_progress net url expected_hash filename w
  = (Return data, w') →
  (∃ resp, urlopen net url = Some resp ∧ Spec.stream_bytes (body resp) = Some data)
  ∧ Spec.equal_ignoring_case (Hashlib.sha256_hexdigest data) expected_hash
  ∧ files w' !! filename = Some data.
Proof.
  intros Hmiss.
  unfold DownloadManager.download_with_progress, mbind, prog_bind, get, modify, emit, lift.
  rewrite Hmiss. cbv beta iota.
  destruct (urlopen net url) as [resp|]; [|done].
  destruct (content_length resp) as [total_size|]; [|done].
  match goal with
  | |- context [DownloadManager.read_chunks _ _ _ ?d ?buf ?w1] =>
      destruct (DownloadManager.read_chunks filename total_size (body resp) d buf w1)
        as [[received|e|arg] w1'] eqn:Hread; [|done..]
  end.
  apply read_chunks_returns in Hread as [(bytes & Hbytes & ->) Hfile].
  2:{ unfold log, set_files. cbn [files]. apply lookup_insert_eq. }
  cbv beta iota.
  destruct (String.eqb (Py.lower expected_hash) (Hashlib.sha256_hexdigest ([] ++ bytes)))
    eqn:Hhash; cbn [negb]; [|done].
  intros [= <- <-]. split; [by exists resp|]. split.
  - apply digest_test. by rewrite String.eqb_sym.
  - exact Hfile.
Qed.

(** After a fetch that returned, a second fetch of the same file is served
    from the cache, whatever the network does then. *)
Theorem fetch_then_hit (net net' : env) (url url' expected_hash filename : string)
    (w w' : world) (data : list byte) :
  DownloadManager.download_with_progress net url expected_hash filename w
  = (Return data, w') →
  DownloadManager.download_with_progress net' url' expected_hash filename w'
  = (Return data, log (PrintOk filename) w').
Proof.
  intros Hrun. apply download_hit.
  destruct (DownloadManager.cached expected_hash filename w) as [stored|] eqn:Hc.
  - rewrite (download_hit net url _ _ _ _ Hc) in Hrun. injection Hrun as <- <-.
    exact Hc.
  - by apply (download_miss_stored net url _ _ w w').
Qed.

Lemma no_request_filter (evs : list event) :
  Forall (λ e, Spec.is_net_open e = false) evs →
  filter (λ e, Spec.is_net_open e = true) evs = [].
Proof.
  intros H. apply filter_none. intros e He. rewrite Forall_forall in H.
  rewrite (H e He). done.
Qed.

(** Whatever its outcome (a result, an exception or an exit), a fetch
    opens a URL at most once, and then the URL it was given: nothing is
    retried and no other address is contacted.  On a cache hit it opens
    none. *)
Theorem fetch_requests_at_most_once (net : env) (url expected_hash filename : string)
    (w : world) :
  ∃ evs,
    trace (DownloadManager.download_with_progress net url expected_hash filename w).2
    = trace w ++ evs
    ∧ match DownloadManager.cached expected_hash filename w with
      | Some _ => filter (λ e, Spec.is_net_open e = true) evs = []
      | None => filter (λ e, Spec.is_net_open e = true) evs = []
                ∨ filter (λ e, Spec.is_net_open e = true) evs = [NetOpen url]
      end.
Proof.
  unfold DownloadManager.download_with_progress, mbind, prog_bind, get, modify, emit, lift.
  destruct (DownloadManager.cached expected_hash filename w) as [stored|].
  { by exists [PrintOk filename]. }
  cbv beta iota.
  destruct (urlopen net url) as [resp|]; [|exists [NetOpen url]; split; [done|by right]].
  destruct (content_length resp) as [total_size|];
    [|exists [NetOpen url]; split; [done|by right]].
  match goal with
  | |- context [DownloadManager.read_chunks _ _ _ ?d ?buf ?w1] =>
      destruct (read_chunks_frame filename total_size (body resp) d buf w1)
        as (evs & _ & Htr & Hevs);
      destruct (DownloadManager.read_chunks filename total_size (body resp) d buf w1)
        as [[received|e|arg] w1']
  end; cbn [snd fst] in *.
  - cbv beta iota. exists (NetOpen url :: evs ++ [PrintNewline]). split.
    + destruct (negb _); unfold mret, prog_ret;
        cbn [snd trace log set_total_bytes]; rewrite Htr;
        cbn [trace log set_files]; by rewrite <- !app_assoc.
    + right. rewrite filter_cons_True by done. f_equal.
      rewrite filter_app, no_request_filter by done. reflexivity.
  - exists (NetOpen url :: evs). split.
    + rewrite Htr. cbn [trace log set_files]. by rewrite <- !app_assoc.
    + right. rewrite filter_cons_True by done. f_equal. by apply no_request_filter.
  - exists (NetOpen url :: evs). split.
    + rewrite Htr. cbn [trace log set_files]. by rewrite <- !app_assoc.
    + right. rewrite filter_cons_True by done. f_equal. by apply no_request_filter.
Qed.

(** ** Target validation *)

Lemma validate_targets_known (targets : list string) :
  Forall (λ t, t ∈ ALL_TARGETS) targets →
  VSInstaller.validate_targets targets = Return tt.
Proof.
  induction 1 as [|t ts Ht _ IH]; [done|].
  cbn [VSInstaller.validate_targets].
  apply str_in_elem_of in Ht. by rewrite Ht.
Qed.

Lemma validate_targets_unknown (known rest : list string) (unknown : string) :
  Forall (λ t, t ∈ ALL_TARGETS) known →
  unknown ∉ ALL_TARGETS →
  VSInstaller.validate_targets (known ++ unknown :: rest)
  = SysExit (ExitMsg ("Unknown target architecture: " +:+ unknown)).
Proof.
  intros Hknown Hunknown. induction Hknown as [|t ts Ht _ IH].
  - cbn [app VSInstaller.validate_targets].
    destruct (VSInstaller.str_in unknown ALL_TARGETS) eqn:E; [|done].
    by apply str_in_elem_of in E.
  - cbn [app VSInstaller.validate_targets].
    apply str_in_elem_of in Ht. by rewrite Ht.
Qed.

(** The installer is built when every comma-separated target is a known
    architecture, and the run ends naming the first one that is not. *)
Theorem init_validates_targets (args : arguments) :
  (Forall (λ t, t ∈ ALL_TARGETS) (Py.split "," (target args)) →
   VSInstaller.init args
   = Return (VSInstaller.Installer args (host args) (Py.split "," (target args))))
  ∧ (∀ known unknown rest,
       Py.split "," (target args) = known ++ unknown :: rest →
       Forall (λ t, t ∈ ALL_TARGETS) known →
       unknown ∉ ALL_TARGETS →
       VSInstaller.init args
       = SysExit (ExitMsg ("Unknown target architecture: " +:+ unknown))).
Proof.
  unfold VSInstaller.init. split.
  - intros H. by rewrite validate_targets_known.
  - intros known unknown rest -> Hknown Hunknown.
    by rewrite validate_targets_unknown.
Qed.

Lemma init_validates_targets_witness :
  VSInstaller.init (Arguments false true None None false "x64,arm64" "x64")
  = Return (VSInstaller.Installer
              (Arguments false true None None false "x64,arm64" "x64")
              "x64" ["x64"; "arm64"])
  ∧ VSInstaller.init (Arguments false true None None false "x64,,arm" "x64")
    = SysExit (ExitMsg "Unknown target architecture: ").
Proof.
  split.
  - apply (proj1 (init_validates_targets
                    (Arguments false true None None false "x64,arm64" "x64"))).
    apply (bool_decide_eq_true_1 _). vm_compute. reflexivity.
  - apply (proj2 (init_validates_targets
                    (Arguments false true None None false "x64,,arm" "x64"))
             ["x64"] "" ["arm"]).
    + reflexivity.
    + apply (bool_decide_eq_true_1 _). vm_compute. reflexivity.
    + apply (bool_decide_eq_true_1 _). vm_compute. reflexivity.
Defined.

(** ** Packages that the index does not hold *)

Lemma for_each_missing (net : env) (packages : Dict.t (list package))
    (names : list string) (w : world) :
  (∀ n, n ∈ names → Dict.contains packages n = false) →
  for_each names (VSInstaller.download_package net packages) w
  = (Return tt,
     World (files w) (output w) (total_bytes w) (trace w ++ (PrintMissing <$> names))).
Proof.
  revert w. induction names as [|n names IH]; intros w Habsent.
  - cbn. rewrite app_nil_r. by destruct w.
  - cbn [for_each]. unfold mbind, prog_bind, VSInstaller.download_package at 1.
    rewrite (Habsent n) by left. cbn [negb]. unfold emit.
    rewrite IH by (intros; apply Habsent; by right).
    unfold log. cbn [files output total_bytes trace fmap list_fmap].
    by rewrite <- app_assoc.
Qed.

(** When the index holds none of the expanded identifiers, each one is
    reported as missing, in sorted order, nothing is requested or written,
    and the step returns. *)
Theorem download_msvc_all_missing (net : env) (self : VSInstaller.installer)
    (packages : Dict.t (list package)) (msvc_version : string)
    (names : list string) (w : world) :
  VSInstaller.expand_packages self packages msvc_version = Return names →
  (∀ n, n ∈ names → Dict.contains packages n = false) →
  VSInstaller.download_msvc net self packages msvc_version w
  = (Return tt,
     World (files w) (output w) (total_bytes w)
           (trace w ++ PrintLine "Downloading MSVC packages..."
                    :: (PrintMissing <$> Py.sorted names))).
Proof.
  intros Hexp Habsent.
  unfold VSInstaller.download_msvc, mbind, prog_bind, emit, lift. rewrite Hexp.
  rewrite for_each_missing.
  - unfold log. cbn [files output total_bytes trace]. by rewrite <- app_assoc.
  - intros n Hn. apply Habsent. unfold Py.sorted in Hn.
    by rewrite merge_sort_Permutation in Hn.
Qed.

Lemma download_msvc_all_missing_witness :
  VSInstaller.download_msvc Sample.offline Sample.arm_installer
    Sample.arm_fallback_index "14.39.17.9" Sample.initial_world
  = (Return tt,
     World ∅ ∅ 0
       (PrintLine "Downloading MSVC packages..."
        :: (PrintMissing <$>
              Py.sorted
                [ "microsoft.visualcpp.dia.sdk";
                  "microsoft.vc.14.39.17.9.crt.headers.base";
                  "microsoft.vc.14.39.17.9.crt.source.base";
                  "microsoft.vc.14.39.17.9.asan.headers.base";
                  "microsoft.vc.14.39.17.9.pgo.headers.base";
                  "microsoft.vc.14.39.17.9.tools.hostx64.targetarm.base";
                  "microsoft.vc.14.39.17.9.tools.hostx64.targetarm.res.base";
                  "microsoft.vc.14.39.17.9.crt.arm.desktop.base";
                  "microsoft.vc.14.39.17.9.crt.arm.store.base";
                  "microsoft.vc.14.39.17.9.premium.tools.hostx64.targetarm.base";
                  "microsoft.vc.14.39.17.9.pgo.arm.base";
                  "microsoft.visualcpp.servicing.redist.base" ]))).
Proof.
  apply (download_msvc_all_missing Sample.offline Sample.arm_installer
           Sample.arm_fallback_index "14.39.17.9" _ Sample.initial_world).
  - vm_compute. reflexivity.
  - intros n Hn. revert n Hn. apply Forall_forall.
    apply (bool_decide_eq_true_1 _). vm_compute. reflexivity.
Defined.

(** ** The SDK step without installer packages *)

Lemma download_msi_files_none (net : env) (sdk_package : package)
    (package_names msi_files cab_files : list string) (w : world) :
  (∀ n, n ∈ package_names →
     VSInstaller.find_installer_payload sdk_package n = Return None) →
  VSInstaller.download_msi_files net sdk_package package_names msi_files cab_files w
  = (Return (msi_files, cab_files), w).
Proof.
  induction package_names as [|n names IH]; intros Hnone; [done|].
  cbn [VSInstaller.download_msi_files]. unfold mbind, prog_bind, lift.
  rewrite (Hnone n) by left. apply IH. intros; apply Hnone; by right.
Qed.

(** When the payload list of the SDK holds none of the installer packages
    the step fetches and installs nothing, and returns. *)
Theorem download_sdk_no_installers (net : env) (self : VSInstaller.installer)
    (packages : Dict.t (list package)) (sdk_package_id : string)
    (sdk_package : package) (w : world) :
  VSInstaller.sdk_dependency packages sdk_package_id = Return sdk_package →
  (∀ n, n ∈ VSInstaller.sdk_package_names self →
     VSInstaller.find_installer_payload sdk_package n = Return None) →
  VSInstaller.download_sdk net self packages sdk_package_id w
  = (Return tt,
     World (files w) (output w) (total_bytes w)
           (trace w ++ [PrintLine "Downloading Windows SDK packages...";
                        PrintLine "Installing MSI files..."])).
Proof.
  intros Hdep Hnone.
  unfold VSInstaller.download_sdk, mbind, prog_bind, emit, lift. rewrite Hdep.
  rewrite download_msi_files_none.
  - cbn. unfold log. cbn [files output total_bytes trace]. by rewrite <- app_assoc.
  - intros n Hn. apply Hnone. unfold Py.sorted in Hn.
    by rewrite merge_sort_Permutation in Hn.
Qed.

(** ** The keys of the index *)



(** ** The theorems above at the sample inputs *)

Lemma recorded_versions_in_index_witness :
  (Dict.contains (VSInstaller.group_packages Sample.manifest)
     "microsoft.vc.14.39.17.9.tools.hostx64.targetx64.base" = true
   ∧ Spec.gives_msvc_key "microsoft.vc.14.39.17.9.tools.hostx64.targetx64.base" "14.39")
  ∧ (Dict.contains (VSInstaller.group_packages Sample.manifest)
       "microsoft.visualstudio.component.windows11sdk.22621" = true
     ∧ Spec.gives_sdk_key "microsoft.visualstudio.component.windows11sdk.22621" "22621").
Proof.
  assert (Hparse : VSInstaller.parse_available_versions Sample.manifest
                   = Return (VSInstaller.group_packages Sample.manifest,
                             Sample.msvc_versions, Sample.manifest_sdk_versions))
    by (vm_compute; reflexivity).
  split.
  - apply (proj1 (recorded_versions_in_index Sample.manifest _ _ _ "14.39"
                    "microsoft.vc.14.39.17.9.tools.hostx64.targetx64.base" Hparse)).
    vm_compute. reflexivity.
  - apply (proj2 (recorded_versions_in_index Sample.manifest _ _ _ "22621"
                    "microsoft.visualstudio.component.windows11sdk.22621" Hparse)).
    vm_compute. reflexivity.
Defined.

Lemma selected_packages_in_index_witness :
  Dict.contains (VSInstaller.group_packages Sample.manifest)
    "microsoft.vc.14.39.17.9.tools.hostx64.targetx64.base" = true
  ∧ Dict.contains (VSInstaller.group_packages Sample.manifest)
      "microsoft.visualstudio.component.windows11sdk.22621" = true
  ∧ Spec.gives_sdk_key "microsoft.visualstudio.component.windows11sdk.22621" "22621".
Proof.
  apply (selected_packages_in_index Sample.x64_installer Sample.manifest
           (VSInstaller.group_packages Sample.manifest)
           Sample.msvc_versions Sample.manifest_sdk_versions
           Sample.initial_world Sample.initial_world "14.39.17.9" "22621").
  - vm_compute. reflexivity.
  - vm_compute. reflexivity.
Defined.

Lemma select_versions_requested_witness :
  ∃ sdk_ver sdk_package_id,
    VSInstaller.select_versions Sample.requesting_installer Sample.msvc_versions
      Sample.sdk_versions Sample.initial_world
    = (Return (Py.join "." (Py.slice
                 (Py.split "." "microsoft.vc.14.39.17.9.tools.hostx64.targetx64.base")
                 2 6),
               sdk_ver, "microsoft.vc.14.39.17.9.tools.hostx64.targetx64.base",
               sdk_package_id), Sample.initial_world)
    ∧ Sample.sdk_versions !! sdk_ver = Some sdk_package_id
    ∧ ∀ k, k ∈ dom Sample.sdk_versions → String.le k sdk_ver.
Proof.
  apply (select_versions_requested Sample.requesting_installer Sample.msvc_versions
           Sample.sdk_versions Sample.initial_world "1" "4.39"); try reflexivity.
  intros H. apply (f_equal (λ m : gmap string string, m !! "9")) in H.
  vm_compute in H. discriminate H.
Defined.

Lemma select_versions_no_candidate_witness :
  VSInstaller.select_versions Sample.x64_installer ∅ Sample.sdk_versions
    Sample.initial_world
  = (Raise ValueError, Sample.initial_world).
Proof.
  apply (select_versions_no_candidate Sample.x64_installer Sample.sdk_versions
           Sample.initial_world); reflexivity.
Defined.

Lemma expand_packages_layout_witness :
  ∃ redists,
    Forall2 (λ target id,
               VSInstaller.redist_package Sample.arm_conventional_index "14.39.17.9"
                 target = Return id)
            ["arm"] redists
    ∧ [ "microsoft.visualcpp.dia.sdk";
        "microsoft.vc.14.39.17.9.crt.headers.base";
        "microsoft.vc.14.39.17.9.crt.source.base";
        "microsoft.vc.14.39.17.9.asan.headers.base";
        "microsoft.vc.14.39.17.9.pgo.headers.base";
        "microsoft.vc.14.39.17.9.tools.hostx64.targetarm.base";
        "microsoft.vc.14.39.17.9.tools.hostx64.targetarm.res.base";
        "microsoft.vc.14.39.17.9.crt.arm.desktop.base";
        "microsoft.vc.14.39.17.9.crt.arm.store.base";
        "microsoft.vc.14.39.17.9.premium.tools.hostx64.targetarm.base";
        "microsoft.vc.14.39.17.9.pgo.arm.base";
        "microsoft.vc.14.39.17.9.crt.redist.arm.onecore.desktop.base" ]
      = VSInstaller.base_packages "14.39.17.9"
        ++ concat (zip_with (λ target id,
                     VSInstaller.target_packages "x64" "14.39.17.9" target
                     ++ VSInstaller.asan_packages "14.39.17.9" target ++ [id])
                   ["arm"] redists)
    ∧ 12%nat
      = (5 + 7 * 1
         + length (filter (λ target, VSInstaller.str_in target ["x86"; "x64"] = true)
                          ["arm"]))%nat.
Proof.
  apply (expand_packages_layout Sample.arm_installer Sample.arm_conventional_index
           "14.39.17.9").
  vm_compute. reflexivity.
Defined.

Lemma sanitizer_only_for_x86_x64_witness :
  "microsoft.vc." +:+ "14.39.17.9" +:+ ".asan." +:+ "arm" +:+ ".base"
  ∈ [ "microsoft.visualcpp.dia.sdk";
      "microsoft.vc.14.39.17.9.crt.headers.base";
      "microsoft.vc.14.39.17.9.crt.source.base";
      "microsoft.vc.14.39.17.9.asan.headers.base";
      "microsoft.vc.14.39.17.9.pgo.headers.base";
      "microsoft.vc.14.39.17.9.tools.hostx64.targetarm.base";
      "microsoft.vc.14.39.17.9.tools.hostx64.targetarm.res.base";
      "microsoft.vc.14.39.17.9.crt.arm.desktop.base";
      "microsoft.vc.14.39.17.9.crt.arm.store.base";
      "microsoft.vc.14.39.17.9.premium.tools.hostx64.targetarm.base";
      "microsoft.vc.14.39.17.9.pgo.arm.base";
      "microsoft.vc.14.39.17.9.crt.redist.arm.onecore.desktop.base" ]
  ↔ "arm" ∈ ["arm"] ∧ ("arm" = "x86" ∨ "arm" = "x64").
Proof.
  apply (sanitizer_only_for_x86_x64 Sample.arm_installer Sample.arm_conventional_index
           "14.39.17.9" "arm").
  - vm_compute. reflexivity.
  - intros t Ht. apply list_elem_of_singleton in Ht. subst t.
    apply (bool_decide_eq_true_1 _). vm_compute. reflexivity.
  - intros t Ht. apply list_elem_of_singleton in Ht. subst t. vm_compute. reflexivity.
  - apply (bool_decide_eq_true_1 _). vm_compute. reflexivity.
Defined.

Lemma four_field_identifier_witness :
  Py.join "." (Py.slice (Py.split "."
     ("microsoft.vc." +:+ "14" +:+ "." +:+ "39" +:+ "." +:+ "17" +:+ "." +:+ "9"
      +:+ ".tools.hostx64.targetx64.base")) 2 4) = "14" +:+ "." +:+ "39"
  ∧ Py.join "." (Py.slice (Py.split "."
       ("microsoft.vc." +:+ "14" +:+ "." +:+ "39" +:+ "." +:+ "17" +:+ "." +:+ "9"
        +:+ ".tools.hostx64.targetx64.base")) 2 6)
    = "14" +:+ "." +:+ "39" +:+ "." +:+ "17" +:+ "." +:+ "9"
  ∧ head (VSInstaller.target_packages "x64"
            ("14" +:+ "." +:+ "39" +:+ "." +:+ "17" +:+ "." +:+ "9") "x64")
    = Some ("microsoft.vc." +:+ "14" +:+ "." +:+ "39" +:+ "." +:+ "17" +:+ "." +:+ "9"
            +:+ ".tools.hostx64.targetx64.base").
Proof.
  apply (four_field_identifier "14" "39" "17" "9"); reflexivity.
Defined.

Lemma two_field_identifier_witness :
  Py.join "." (Py.slice (Py.split "."
     ("microsoft.vc." +:+ "14" +:+ "." +:+ "39" +:+ ".tools.hostx64.targetx64.base"))
     2 4) = "14" +:+ "." +:+ "39"
  ∧ Py.join "." (Py.slice (Py.split "."
       ("microsoft.vc." +:+ "14" +:+ "." +:+ "39" +:+ ".tools.hostx64.targetx64.base"))
       2 6) = "14" +:+ "." +:+ "39" +:+ ".tools.hostx64".
Proof.
  apply (two_field_identifier "14" "39"); reflexivity.
Defined.

Lemma name_window_full_witness :
  Py.slice Sample.libs_msi (38 - 32) (38 + 4)
  = take 32 (drop (Z.to_nat (38 - 32)) Sample.libs_msi) ++ MSIParser.marker
  ∧ length (Py.slice Sample.libs_msi (38 - 32) (38 + 4)) = 36%nat.
Proof.
  apply (name_window_full Sample.libs_msi 38).
  - lia.
  - vm_compute. reflexivity.
Defined.

Lemma name_window_short_witness :
  Py.slice Sample.libs_msi (10 - 32) (10 + 4) = []
  ∧ Spec.name_at Sample.libs_msi 10 = Return "".
Proof.
  apply (name_window_short Sample.libs_msi 10).
  - lia.
  - vm_compute. lia.
Defined.

Lemma fetch_miss_result_witness :
  (∃ resp, urlopen Sample.good_net Sample.abc_url = Some resp
           ∧ Spec.stream_bytes (body resp) = Some (bytes_of "abc"))
  ∧ Spec.equal_ignoring_case (Hashlib.sha256_hexdigest (bytes_of "abc")) Sample.abc_digest
  ∧ files (DownloadManager.download_with_progress Sample.good_net Sample.abc_url
             Sample.abc_digest "abc.bin" Sample.initial_world).2 !! "abc.bin"
    = Some (bytes_of "abc").
Proof.
  apply (fetch_miss_result Sample.good_net Sample.abc_url Sample.abc_digest "abc.bin"
           Sample.initial_world).
  - vm_compute. reflexivity.
  - vm_compute. reflexivity.
Defined.

Lemma fetch_then_hit_witness :
  DownloadManager.download_with_progress Sample.offline Sample.abc_url Sample.abc_digest
    "abc.bin"
    (DownloadManager.download_with_progress Sample.good_net Sample.abc_url
       Sample.abc_digest "abc.bin" Sample.initial_world).2
  = (Return (bytes_of "abc"),
     log (PrintOk "abc.bin")
       (DownloadManager.download_with_progress Sample.good_net Sample.abc_url
          Sample.abc_digest "abc.bin" Sample.initial_world).2).
Proof.
  apply (fetch_then_hit Sample.good_net Sample.offline Sample.abc_url Sample.abc_url
           Sample.abc_digest "abc.bin" Sample.initial_world).
  vm_compute. reflexivity.
Defined.

Lemma download_sdk_no_installers_witness :
  VSInstaller.download_sdk Sample.offline Sample.x64_installer Sample.bare_sdk_index
    "microsoft.visualstudio.component.windows11sdk.22621" Sample.initial_world
  = (Return tt,
     World ∅ ∅ 0 [PrintLine "Downloading Windows SDK packages...";
                  PrintLine "Installing MSI files..."]).
Proof.
  apply (download_sdk_no_installers Sample.offline Sample.x64_installer
           Sample.bare_sdk_index "microsoft.visualstudio.component.windows11sdk.22621"
           Sample.bare_sdk_package Sample.initial_world).
  - vm_compute. reflexivity.
  - intros n _. vm_compute. reflexivity.
Defined.
